(** * Deadline reminders of the task tracker (app.py)

    A shallow embedding of the scheduler job [check_deadlines] of app.py
    together with the pieces it calls: the [Task] model and its
    [notify_recipient] method, [send_email], the two filtered queries, the
    session commit and rollback.

    Modelling decisions.
    - A [datetime] is an integer number of microseconds (naive local time),
      a [timedelta] a number of microseconds.
    - The table of tasks is the list of its rows in storage order; the
      primary key [id] identifies a row.  The two queries of the job have
      no ORDER BY clause, hence a query yields the matching rows in storage
      order.
    - The SQLAlchemy session is the list of rows as the open transaction
      sees them.  A loaded [Task] object is the session's row of that
      primary key (identity map), an attribute write changes that row, and a
      later query (which flushes first) is evaluated on the session.
      [commit] stores the session, [rollback] throws the staged writes away.
    - Python exceptions are explicit: a computation returns [Ok v] or
      [Raise e], and [try_except] is the try/except statement.
    - What the outside world does (the clock; whether a query, the
      building of a message, an SMTP dialogue, a socket emit or the commit
      raises; whether a failed dialogue had handed its message over) is
      given by an environment [Env] of one run of the job; it is arbitrary
      in every theorem.
    - Everything the job does to the outside is appended to a trace of
      events. *)

From Stdlib Require Import ZArith List String Bool Lia DecimalString
  Permutation.
Import ListNotations.
Open Scope string_scope.
Open Scope Z_scope.

Set Implicit Arguments.

(** ** Python values *)

(** Truth value of a [str]: only the empty string is false. *)
Definition truthy (s : string) : bool :=
  match s with
  | EmptyString => false
  | String _ _ => true
  end.

(** [a or b] on two strings. *)
Definition str_or (a b : string) : string := if truthy a then a else b.

(** [a or b] where [a] may be [None]. *)
Definition opt_or (a : option string) (b : string) : string :=
  match a with
  | Some s => str_or s b
  | None => b
  end.

(** [str] of an [int]. *)
Definition str_int (z : Z) : string := NilZero.string_of_int (Z.to_int z).

Definition nl : string := String (Ascii.ascii_of_nat 10) EmptyString.

(** [timedelta(days=d)] and [timedelta(hours=h)], in microseconds. *)
Definition timedelta_days (d : Z) : Z := d * 86400000000.
Definition timedelta_hours (h : Z) : Z := h * 3600000000.
Definition timedelta_minutes (m : Z) : Z := m * 60000000.

(** ** Configuration read from the process environment (app.py 45-50) *)

Record Config := {
  EMAIL_USER : string;
  EMAIL_PASS : string;
  DEFAULT_FROM : string;
  DEFAULT_TO : string
}.

(** ** The database model (app.py 93-105) *)

Record Task := {
  id : Z;
  title : string;
  description : option string;
  due_date : Z;
  status : string;
  notify_email : option string;
  notified_1day : bool;
  notified_1hour : bool
}.

Definition notify_recipient (cfg : Config) (self : Task) : string :=
  opt_or (notify_email self) (DEFAULT_TO cfg).

(** The two reminders of the job: the block of lines 151-177 is the [Day]
    reminder, the block of lines 179-204 the [Hour] reminder. *)
Inductive Kind := Day | Hour.

Definition Kind_eqb (a b : Kind) : bool :=
  match a, b with
  | Day, Day | Hour, Hour => true
  | _, _ => false
  end.

(** The column a reminder reads and writes. *)
Definition notified (k : Kind) (t : Task) : bool :=
  match k with
  | Day => notified_1day t
  | Hour => notified_1hour t
  end.

(** [task.notified_1day = True], [task.notified_1hour = True]. *)
Definition set_notified (k : Kind) (t : Task) : Task :=
  match k with
  | Day =>
      {| id := id t; title := title t; description := description t;
         due_date := due_date t; status := status t;
         notify_email := notify_email t;
         notified_1day := true; notified_1hour := notified_1hour t |}
  | Hour =>
      {| id := id t; title := title t; description := description t;
         due_date := due_date t; status := status t;
         notify_email := notify_email t;
         notified_1day := notified_1day t; notified_1hour := true |}
  end.

(** [day_threshold - now] and [hour_threshold - now]. *)
Definition lead (k : Kind) : Z :=
  match k with
  | Day => timedelta_days 1
  | Hour => timedelta_hours 1
  end.

(** The WHERE clause of the two queries (lines 153-158 and 181-186). *)
Definition due_filter (k : Kind) (now threshold : Z) (t : Task) : bool :=
  String.eqb (status t) "Pending"
  && (due_date t <=? threshold)
  && (due_date t >? now)
  && Bool.eqb (notified k t) false.

(** ** The outside world *)

Record EmailMessage := {
  Subject : string;
  From : string;
  To : string;
  Content : string
}.

Inductive Event :=
| Print (line : string)                       (* print(...) on stdout *)
| PrintExc (e : string)                       (* traceback.print_exc() *)
| Smtp (msg : EmailMessage)                   (* server.send_message(msg) went through *)
| Emit (ev_title ev_due ev_when : string)     (* socketio.emit('deadline_alert', ...) went through *)
| Send (task : Z) (k : Kind) (recipient : string) (ok : bool).
    (* bookkeeping: send_email was called for this task and reminder and
       returned [ok] *)

Record Env := {
  now : Z;                                          (* datetime.now() *)
  query_raises : Kind -> option string;             (* Task.query...all() raises *)
  message_raises : EmailMessage -> option string;   (* building the message raises *)
  smtp_raises : nat -> EmailMessage -> option string; (* the n-th SMTP dialogue raises *)
  smtp_handed_over : nat -> EmailMessage -> bool;   (* ... after send_message went through *)
  emit_raises : nat -> option string;               (* the n-th socketio.emit raises *)
  commit_raises : option string                     (* db.session.commit() raises *)
}.

Record World := {
  db : list Task;        (* the committed rows, in storage order *)
  session : list Task;   (* the rows as the open transaction sees them *)
  smtp_calls : nat;      (* SMTP dialogues started so far *)
  emit_calls : nat;      (* socket emits attempted so far *)
  trace : list Event     (* what happened, oldest first *)
}.

(** ** Computations: state and exceptions *)

Inductive Result (A : Type) :=
| Ok (a : A)
| Raise (e : string).
Arguments Raise {A} e.

Definition M (A : Type) : Type := World -> Result A * World.

Definition ret {A} (a : A) : M A := fun w => (Ok a, w).

Definition bind {A B} (m : M A) (f : A -> M B) : M B :=
  fun w =>
    match m w with
    | (Ok a, w') => f a w'
    | (Raise e, w') => (Raise e, w')
    end.

Definition raise {A} (e : string) : M A := fun w => (Raise e, w).

(** [try: m  except Exception as e: h e]. *)
Definition try_except {A} (m : M A) (h : string -> M A) : M A :=
  fun w =>
    match m w with
    | (Ok a, w') => (Ok a, w')
    | (Raise e, w') => h e w'
    end.

Declare Scope py_scope.
Delimit Scope py_scope with py.
Notation "x <- m ;; k" := (bind m (fun x => k))
  (at level 100, m at next level, right associativity) : py_scope.
Notation "m ;; k" := (bind m (fun _ => k))
  (at level 100, right associativity) : py_scope.
Open Scope py_scope.

(** [for x in l: body x]. *)
Fixpoint for_each {A} (l : list A) (body : A -> M unit) : M unit :=
  match l with
  | [] => ret tt
  | x :: l' => body x ;; for_each l' body
  end.

Definition log (e : Event) : M unit :=
  fun w =>
    (Ok tt,
     {| db := db w; session := session w; smtp_calls := smtp_calls w;
        emit_calls := emit_calls w; trace := trace w ++ [e] |}).

Definition print (line : string) : M unit := log (Print line).

(** [with app.app_context():] the job works in a session of its own, which
    starts from the committed rows. *)
Definition app_context : M unit :=
  fun w =>
    (Ok tt,
     {| db := db w; session := db w; smtp_calls := smtp_calls w;
        emit_calls := emit_calls w; trace := trace w |}).

(** [Task.query.filter(...).all()] for one reminder. *)
Definition Task_query (env : Env) (k : Kind) (now threshold : Z)
  : M (list Task) :=
  fun w =>
    match query_raises env k with
    | Some e => (Raise e, w)
    | None => (Ok (filter (due_filter k now threshold) (session w)), w)
    end.

(** The attribute write of lines 171 and 199, on the object of primary key
    [i]. *)
Definition write_notified (k : Kind) (i : Z) : M unit :=
  fun w =>
    (Ok tt,
     {| db := db w;
        session := map (fun t => if id t =? i then set_notified k t else t)
                       (session w);
        smtp_calls := smtp_calls w; emit_calls := emit_calls w;
        trace := trace w |}).

(** [db.session.add(task)]: the object was loaded by this session and is in
    it already. *)
Definition db_session_add (i : Z) : M unit := ret tt.

Definition db_session_commit (env : Env) : M unit :=
  fun w =>
    match commit_raises env with
    | Some e => (Raise e, w)
    | None =>
        (Ok tt,
         {| db := session w; session := session w;
            smtp_calls := smtp_calls w; emit_calls := emit_calls w;
            trace := trace w |})
    end.

Definition db_session_rollback : M unit :=
  fun w =>
    (Ok tt,
     {| db := db w; session := db w; smtp_calls := smtp_calls w;
        emit_calls := emit_calls w; trace := trace w |}).

(** Lines 60-64: [EmailMessage()], the three headers and [set_content].
    A header value that the e-mail policy refuses (a line break in it)
    makes the assignment raise. *)
Definition EmailMessage_build (env : Env) (msg : EmailMessage)
  : M EmailMessage :=
  fun w =>
    match message_raises env msg with
    | Some e => (Raise e, w)
    | None => (Ok msg, w)
    end.

(** The SMTP dialogue of lines 67-82 (connect, optional STARTTLS, login,
    send_message, and the QUIT at the end of the with block).  It goes
    through and the message is handed over; or it raises, either before
    [send_message] went through or after it (a refused QUIT), the message
    then being handed over all the same. *)
Definition smtp_send_message (env : Env) (msg : EmailMessage) : M unit :=
  fun w =>
    let w1 :=
      {| db := db w; session := session w; smtp_calls := S (smtp_calls w);
         emit_calls := emit_calls w; trace := trace w |} in
    match smtp_raises env (smtp_calls w) msg with
    | Some e =>
        if smtp_handed_over env (smtp_calls w) msg
        then (Raise e, snd (log (Smtp msg) w1))
        else (Raise e, w1)
    | None => log (Smtp msg) w1
    end.

(** [socketio.emit('deadline_alert', {...})]. *)
Definition socketio_emit (env : Env) (ev_title ev_due ev_when : string)
  : M unit :=
  fun w =>
    let w1 :=
      {| db := db w; session := session w; smtp_calls := smtp_calls w;
         emit_calls := S (emit_calls w); trace := trace w |} in
    match emit_raises env (emit_calls w) with
    | Some e => (Raise e, w1)
    | None => log (Emit ev_title ev_due ev_when) w1
    end.

(** ** Reading a trace *)

(** The calls of [send_email] made for reminders: task, reminder, result. *)
Definition sends (evs : list Event) : list (Z * Kind * bool) :=
  flat_map
    (fun e =>
       match e with
       | Send i k _ ok => [(i, k, ok)]
       | _ => []
       end) evs.

Definition is_call (i : Z) (k : Kind) (s : Z * Kind * bool) : bool :=
  (fst (fst s) =? i) && Kind_eqb (snd (fst s)) k.

(** A reminder [k] for task [i] was sent with success. *)
Definition sent_ok (k : Kind) (i : Z) (evs : list Event) : bool :=
  existsb (fun s => is_call i k s && snd s) (sends evs).

(** How often [send_email] was called, and how often it returned [True],
    for reminder [k] of task [i]. *)
Definition calls (k : Kind) (i : Z) (evs : list Event) : nat :=
  List.length (filter (is_call i k) (sends evs)).

Definition successes (k : Kind) (i : Z) (evs : list Event) : nat :=
  List.length (filter (fun s => is_call i k s && snd s) (sends evs)).

(** The row [t] once the successful reminders of [evs] are written to it. *)
Definition mark (evs : list Event) (t : Task) : Task :=
  {| id := id t; title := title t; description := description t;
     due_date := due_date t; status := status t;
     notify_email := notify_email t;
     notified_1day := notified_1day t || sent_ok Day (id t) evs;
     notified_1hour := notified_1hour t || sent_ok Hour (id t) evs |}.

(** What a run of the job did, read off the world before and after. *)
Definition new_events (w w' : World) : list Event :=
  skipn (List.length (trace w)) (trace w').

(** The rows the query of reminder [k] selects at clock [now]. *)
Definition due_tasks (k : Kind) (now : Z) (rows : list Task) : list Task :=
  filter (due_filter k now (now + lead k)) rows.

(** The test of lines 165 and 193, negated: the task has a recipient. *)
Definition has_recipient (cfg : Config) (t : Task) : bool :=
  truthy (notify_recipient cfg t).

(** The primary key is unique. *)
Definition unique_ids (rows : list Task) : Prop := NoDup (map id rows).

(** What a run may change in a row: nothing but the two flags, and those
    only from false to true. *)
Definition same_but_flags (t t' : Task) : Prop :=
  id t' = id t /\ title t' = title t /\ description t' = description t /\
  due_date t' = due_date t /\ status t' = status t /\
  notify_email t' = notify_email t /\
  (notified_1day t = true -> notified_1day t' = true) /\
  (notified_1hour t = true -> notified_1hour t' = true).

(** Rows in ascending order of [due_date]. *)
Fixpoint due_ascending (rows : list Task) : bool :=
  match rows with
  | [] => true
  | t :: rest =>
      match rest with
      | [] => true
      | t' :: _ => (due_date t <=? due_date t') && due_ascending rest
      end
  end.

Section Job.

(** [str] of a [datetime]; its text plays no role in what follows. *)
Variable str_datetime : Z -> string.
Variable cfg : Config.

(** ** send_email (app.py 53-90) *)
Definition send_email (env : Env) (to_address subject body : string)
  : M bool :=
  if negb (truthy (EMAIL_USER cfg)) || negb (truthy (EMAIL_PASS cfg)) then
    print "[Email] ERROR: EMAIL_USER or EMAIL_PASS not set in environment." ;;
    ret false
  else
    try_except
      (msg <- EmailMessage_build env
                {| Subject := subject;
                   From := str_or (DEFAULT_FROM cfg) (EMAIL_USER cfg);
                   To := to_address;
                   Content := body |} ;;
       smtp_send_message env msg ;;
       print ("[Email] Sent to " ++ to_address ++ ": " ++ subject) ;;
       ret true)
      (fun e =>
         print "[Email] Failed to send â€” exception:" ;;
         log (PrintExc e) ;;
         ret false).

(** ** check_deadlines (app.py 145-210) *)

Definition reminder_subject (k : Kind) (task : Task) : string :=
  match k with
  | Day => "Reminder: '" ++ title task ++ "' is due in ~1 day"
  | Hour => "Urgent: '" ++ title task ++ "' is due in ~1 hour"
  end.

Definition reminder_body (task : Task) : string :=
  "Task: " ++ title task ++ nl ++ "Due: " ++ str_datetime (due_date task)
  ++ nl ++ nl ++ opt_or (description task) "".

Definition kind_when (k : Kind) : string :=
  match k with
  | Day => "1 day"
  | Hour => "1 hour"
  end.

Definition kind_name (k : Kind) : string :=
  match k with
  | Day => "day"
  | Hour => "hour"
  end.

(** The body of the loops of lines 163-177 and 191-204.  The two blocks
    differ in the subject, in the flag they write and in the text of the
    alert (the hour block also passes broadcast=True to the emit, which
    changes nothing here: an emit goes through or raises). *)
Definition remind (env : Env) (k : Kind) (task : Task) : M unit :=
  let recipient := notify_recipient cfg task in
  if negb (truthy recipient) then
    print ("[check_deadlines] no recipient for task " ++ str_int (id task)
           ++ ", skipping")
  else
    let subject := reminder_subject k task in
    let body := reminder_body task in
    ok <- send_email env recipient subject body ;;
    log (Send (id task) k recipient ok) ;;
    if ok then
      write_notified k (id task) ;;
      db_session_add (id task) ;;
      try_except
        (socketio_emit env (title task) (str_datetime (due_date task))
           (kind_when k))
        (fun e => print ("[check_deadlines] socket emit failed: " ++ e))
    else ret tt.

(** The query of one reminder with its except clause (lines 152-161 and
    180-189). *)
Definition tasks_due (env : Env) (k : Kind) (now threshold : Z)
  : M (list Task) :=
  try_except
    (Task_query env k now threshold)
    (fun e =>
       print ("[check_deadlines] DB query (" ++ kind_name k ++ ") failed: "
              ++ e) ;;
       ret []).

(** Lines 147-204: everything before the commit. *)
Definition stage_reminders (env : Env) : M unit :=
  let now := now env in
  let day_threshold := now + timedelta_days 1 in
  let hour_threshold := now + timedelta_hours 1 in
  tasks_day <- tasks_due env Day now day_threshold ;;
  for_each tasks_day (remind env Day) ;;
  tasks_hour <- tasks_due env Hour now hour_threshold ;;
  for_each tasks_hour (remind env Hour).

Definition check_deadlines (env : Env) : M unit :=
  app_context ;;
  stage_reminders env ;;
  try_except
    (db_session_commit env)
    (fun e =>
       db_session_rollback ;;
       print ("[check_deadlines] DB commit failed: " ++ e)).

(** The scheduler runs the job again and again (line 228); [envs] gives the
    outside world of each run. *)
Fixpoint run_scans (envs : list Env) (w : World) : World :=
  match envs with
  | [] => w
  | env :: envs' => run_scans envs' (snd (check_deadlines env w))
  end.

(** The events of the run of the job from [w] in the world [env]. *)
Definition scan_events (env : Env) (w : World) : list Event :=
  new_events w (snd (check_deadlines env w)).

(** The session when the job reaches the commit. *)
Definition staged (env : Env) (w : World) : list Task :=
  session (snd (bind app_context (fun _ => stage_reminders env) w)).

(** The world after the commit of line 207 or the rollback of line 209. *)
Definition settle (env : Env) (w1 : World) : World :=
  match commit_raises env with
  | Some e =>
      {| db := db w1; session := db w1; smtp_calls := smtp_calls w1;
         emit_calls := emit_calls w1;
         trace := (trace w1
                   ++ [Print ("[check_deadlines] DB commit failed: " ++ e)])%list |}
  | None =>
      {| db := session w1; session := session w1;
         smtp_calls := smtp_calls w1; emit_calls := emit_calls w1;
         trace := trace w1 |}
  end.

End Job.

(** ** Reading a run *)

(** What the except clause of a query prints. *)
Definition query_error (env : Env) (k : Kind) : list Event :=
  match query_raises env k with
  | Some e =>
      [Print ("[check_deadlines] DB query (" ++ kind_name k ++ ") failed: "
              ++ e)]
  | None => []
  end.

(** What the except clause of the commit prints. *)
Definition commit_error (env : Env) : list Event :=
  match commit_raises env with
  | Some e => [Print ("[check_deadlines] DB commit failed: " ++ e)]
  | None => []
  end.

(** The list a loop runs over: the due rows, or nothing when the query
    raised. *)
Definition queried (env : Env) (k : Kind) (rows : list Task) : list Task :=
  match query_raises env k with
  | Some _ => []
  | None => due_tasks k (now env) rows
  end.

(** The tasks [send_email] is called for. *)
Definition reminded (cfg : Config) (env : Env) (k : Kind) (rows : list Task)
  : list Task :=
  filter (has_recipient cfg) (queried env k rows).

(** The rows of primary key [i]. *)
Definition with_id (i : Z) (rows : list Task) : list Task :=
  filter (fun t => id t =? i) rows.


(** From [w] to [w'] the events [evs] happened, nothing was committed, and
    the session took the writes of the successful reminders of [evs]. *)
Definition steps (evs : list Event) (w w' : World) : Prop :=
  trace w' = (trace w ++ evs)%list /\
  db w' = db w /\
  session w' = map (mark evs) (session w).

(** ** The web routes (app.py 108-142) *)

(** [request.form]: the submitted fields in the order they came;
    [request.form.get(key)] is the first value of [key], or [None]. *)
Definition Form := list (string * string).

Fixpoint form_get (form : Form) (key : string) : option string :=
  match form with
  | [] => None
  | (k, v) :: rest => if String.eqb k key then Some v else form_get rest key
  end.

(** Truth value of a [str] that may be [None]. *)
Definition truthy_opt (a : option string) : bool :=
  match a with
  | Some s => truthy s
  | None => false
  end.

(** [a or None]. *)
Definition or_None (a : option string) : option string :=
  if truthy_opt a then a else None.

(** [str] of a [bool]. *)
Definition str_bool (b : bool) : string := if b then "True" else "False".

(** What a view function returns. *)
Inductive Response :=
| Text (body : string) (code : Z)                (* return body, code *)
| Redirect (endpoint : string)                   (* redirect(url_for(endpoint)) *)
| Template (name : string) (tasks : list Task).  (* render_template(name, tasks=tasks) *)

(** What the database does during one request. *)
Record Store := {
  assigned_id : Z;                 (* the primary key given to an inserted row *)
  reload_raises : option string;   (* loading an expired object after the commit raises *)
  listing_raises : option string   (* the query of the index page raises *)
}.

(** ORDER BY due_date: the rows in ascending order of [due_date]; rows with
    the same due date keep their storage order. *)
Fixpoint insert_by_due (t : Task) (rows : list Task) : list Task :=
  match rows with
  | [] => [t]
  | r :: rest =>
      if due_date t <=? due_date r then t :: r :: rest
      else r :: insert_by_due t rest
  end.

Definition order_by_due_date (rows : list Task) : list Task :=
  fold_right insert_by_due [] rows.

(** [Task.query.order_by(Task.due_date).all()]. *)
Definition Task_query_ordered (st : Store) : M (list Task) :=
  fun w =>
    match listing_raises st with
    | Some e => (Raise e, w)
    | None => (Ok (order_by_due_date (session w)), w)
    end.

(** The route of the index page (lines 108-111); a request has an
    application context, hence a session, of its own. *)
Definition index (st : Store) : M Response :=
  app_context ;;
  tasks <- Task_query_ordered st ;;
  ret (Template "index.html" tasks).

(** [db.session.add(task)] for a new object: an INSERT at the end of the
    table, pending until the commit. *)
Definition db_session_add_new (task : Task) : M unit :=
  fun w =>
    (Ok tt,
     {| db := db w; session := (session w ++ [task])%list;
        smtp_calls := smtp_calls w; emit_calls := emit_calls w;
        trace := trace w |}).

(** Reading [task.due_date] after the commit: the commit expired the
    object, the read loads it again. *)
Definition reload_due_date (st : Store) (task : Task) : M Z :=
  fun w =>
    match reload_raises st with
    | Some e => (Raise e, w)
    | None => (Ok (due_date task), w)
    end.

Section Web.

Variable str_datetime : Z -> string.
Variable cfg : Config.

(** [datetime.strptime(s, '%Y-%m-%dT%H:%M')] and [datetime.fromisoformat(s)]:
    the date read, or [None] where Python raises. *)
Variable strptime : string -> option Z.
Variable fromisoformat : string -> option Z.

(** The two nested try blocks of lines 123-129. *)
Definition parse_due_date (due_raw : string) : option Z :=
  match strptime due_raw with
  | Some d => Some d
  | None => fromisoformat due_raw
  end.

(** [Task(title=..., description=..., due_date=..., notify_email=...)]
    once inserted: the key the database gave, status and flags at their
    defaults. *)
Definition new_row (st : Store) (form : Form) (due : Z) : Task :=
  {| id := assigned_id st;
     title := opt_or (form_get form "title") "";
     description := form_get form "description";
     due_date := due;
     status := "Pending";
     notify_email := or_None (form_get form "notify_email");
     notified_1day := false; notified_1hour := false |}.

(** The confirmation of lines 137-138. *)
Definition confirmation_subject (form : Form) : string :=
  "Task received: " ++ opt_or (form_get form "title") "".

Definition confirmation_body (form : Form) (due : Z) : string :=
  "Your task '" ++ opt_or (form_get form "title") ""
  ++ "' has been created and is due on " ++ str_datetime due ++ "." ++ nl
  ++ "You will receive reminders 1 day and 1 hour before the deadline.".

(** The route of the form (lines 113-142). *)
Definition add_task (env : Env) (st : Store) (form : Form) : M Response :=
  app_context ;;
  let title := form_get form "title" in
  let description := form_get form "description" in
  let due_raw := form_get form "due_date" in
  let notify_email := or_None (form_get form "notify_email") in
  if negb (truthy_opt title) || negb (truthy_opt due_raw) then
    ret (Text "Missing fields" 400)
  else
    match parse_due_date (opt_or due_raw "") with
    | None => ret (Text "Invalid date format. Use YYYY-MM-DDTHH:MM" 400)
    | Some due =>
        let task := new_row st form due in
        db_session_add_new task ;;
        db_session_commit env ;;
        (if truthy_opt notify_email then
           let subject := confirmation_subject form in
           due' <- reload_due_date st task ;;
           let body := confirmation_body form due' in
           ok <- send_email cfg env (opt_or notify_email "") subject body ;;
           print ("[add_task] confirmation email sent? " ++ str_bool ok)
         else ret tt) ;;
        ret (Redirect "index")
    end.

(** The form passes the two checks of lines 120-129 and its date reads as
    [due]. *)
Definition accepted (form : Form) (due : Z) : Prop :=
  truthy_opt (form_get form "title") = true /\
  truthy_opt (form_get form "due_date") = true /\
  parse_due_date (opt_or (form_get form "due_date") "") = Some due.

(** The world once the row is inserted and committed. *)
Definition stored (st : Store) (form : Form) (due : Z) (w : World) : World :=
  {| db := (db w ++ [new_row st form due])%list;
     session := (db w ++ [new_row st form due])%list;
     smtp_calls := smtp_calls w; emit_calls := emit_calls w;
     trace := trace w |}.

(** What follows the commit: the confirmation, then the redirect. *)
Definition after_commit (env : Env) (st : Store) (form : Form) (due : Z)
  : M Response :=
  (if truthy_opt (or_None (form_get form "notify_email")) then
     due' <- reload_due_date st (new_row st form due) ;;
     ok <- send_email cfg env
             (opt_or (or_None (form_get form "notify_email")) "")
             (confirmation_subject form)
             (confirmation_body form due') ;;
     print ("[add_task] confirmation email sent? " ++ str_bool ok)
   else ret tt) ;;
  ret (Redirect "index").

End Web.

(** ** The scan as a function of the SMTP dialogues *)

(** The message [send_email] builds. *)
Definition email_message (cfg : Config) (to_address subject body : string)
  : EmailMessage :=
  {| Subject := subject;
     From := str_or (DEFAULT_FROM cfg) (EMAIL_USER cfg);
     To := to_address;
     Content := body |}.

Definition has_credentials (cfg : Config) : bool :=
  truthy (EMAIL_USER cfg) && truthy (EMAIL_PASS cfg).

(** [send_email] gets as far as the SMTP dialogue: the credentials are set
    and the message is built without raising. *)
Definition dialogue_started (cfg : Config) (env : Env)
  (to_address subject body : string) : bool :=
  has_credentials cfg &&
  match message_raises env (email_message cfg to_address subject body) with
  | Some _ => false
  | None => true
  end.

(** The result of [send_email] when [n] SMTP dialogues were started before:
    the dialogue is started and does not raise. *)
Definition send_result (cfg : Config) (env : Env) (n : nat)
  (to_address subject body : string) : bool :=
  dialogue_started cfg env to_address subject body &&
  match smtp_raises env n (email_message cfg to_address subject body) with
  | Some _ => false
  | None => true
  end.

(** The message reaches the SMTP server: the dialogue is started and
    [send_message] goes through, whatever happens afterwards. *)
Definition handed_over (cfg : Config) (env : Env) (n : nat)
  (to_address subject body : string) : bool :=
  dialogue_started cfg env to_address subject body &&
  match smtp_raises env n (email_message cfg to_address subject body) with
  | Some _ => smtp_handed_over env n (email_message cfg to_address subject body)
  | None => true
  end.

Section Outcomes.

Variable str_datetime : Z -> string.
Variable cfg : Config.

(** The calls of one loop over [l], with their results, and the number of
    SMTP dialogues started at its end. *)
Fixpoint loop_outcomes (env : Env) (k : Kind) (l : list Task) (n : nat)
  : list (Z * Kind * bool) * nat :=
  match l with
  | [] => ([], n)
  | t :: l' =>
      if has_recipient cfg t then
        let ok :=
          send_result cfg env n (notify_recipient cfg t)
            (reminder_subject k t) (reminder_body str_datetime t) in
        let n' :=
          if dialogue_started cfg env (notify_recipient cfg t)
               (reminder_subject k t) (reminder_body str_datetime t)
          then S n else n in
        let (rest, m) := loop_outcomes env k l' n' in
        ((id t, k, ok) :: rest, m)
      else loop_outcomes env k l' n
  end.

(** The calls of a whole run on the table [rows]: the day loop, then the
    hour loop. *)
Definition scan_outcomes (env : Env) (rows : list Task) (n : nat)
  : list (Z * Kind * bool) :=
  let (day, n') := loop_outcomes env Day (queried env Day rows) n in
  let (hour, _) := loop_outcomes env Hour (queried env Hour rows) n' in
  (day ++ hour)%list.

End Outcomes.

(** ** Counting in a trace *)

(** The messages handed to the SMTP server, and the alerts emitted. *)
Definition transmitted (evs : list Event) : list EmailMessage :=
  flat_map
    (fun e =>
       match e with
       | Smtp m => [m]
       | _ => []
       end) evs.

Definition alerts (evs : list Event) : nat :=
  List.length
    (filter
       (fun e =>
          match e with
          | Emit _ _ _ => true
          | _ => false
          end) evs).



(** The calls of [send_email] that returned [True]. *)
Definition all_successes (evs : list Event) : nat :=
  List.length (filter (fun s : Z * Kind * bool => snd s) (sends evs)).

(** The world [env] with other socket emits. *)
Definition with_emit (env : Env) (f : nat -> option string) : Env :=
  {| now := now env;
     query_raises := query_raises env;
     message_raises := message_raises env;
     smtp_raises := smtp_raises env;
     smtp_handed_over := smtp_handed_over env;
     emit_raises := f;
     commit_raises := commit_raises env |}.

(** What a trace of reminders always satisfies: every call of [send_email]
    that returned [True] handed its message to the SMTP server, an alert
    is emitted at most once per such call, a message has a recipient and
    the configured sender, and without credentials no call succeeds and
    nothing is handed over. *)
Definition tally (cfg : Config) (evs : list Event) : Prop :=
  (all_successes evs <= List.length (transmitted evs))%nat /\
  (alerts evs <= all_successes evs)%nat /\
  Forall (fun m => truthy (To m) = true /\
                   From m = str_or (DEFAULT_FROM cfg) (EMAIL_USER cfg))
         (transmitted evs) /\
  (has_credentials cfg = false ->
   all_successes evs = 0%nat /\ transmitted evs = []).

(** ** Sample data *)

Module Fixtures.

(** A rendering of dates, a configuration with credentials and no default
    recipient, and a quiet outside world with the clock at [n]. *)
Definition render : Z -> string := str_int.

Definition config : Config :=
  {| EMAIL_USER := "tracker@example.org"; EMAIL_PASS := "app-password";
     DEFAULT_FROM := ""; DEFAULT_TO := "" |}.

Definition quiet (n : Z) : Env :=
  {| now := n;
     query_raises := fun _ => None;
     message_raises := fun _ => None;
     smtp_raises := fun _ _ => None;
     smtp_handed_over := fun _ _ => false;
     emit_raises := fun _ => None;
     commit_raises := None |}.

Definition commit_down (n : Z) : Env :=
  {| now := n;
     query_raises := fun _ => None;
     message_raises := fun _ => None;
     smtp_raises := fun _ _ => None;
     smtp_handed_over := fun _ _ => false;
     emit_raises := fun _ => None;
     commit_raises := Some "database is locked" |}.

Definition smtp_down (n : Z) : Env :=
  {| now := n;
     query_raises := fun _ => None;
     message_raises := fun _ => None;
     smtp_raises := fun _ _ => Some "connection refused";
     smtp_handed_over := fun _ _ => false;
     emit_raises := fun _ => None;
     commit_raises := None |}.

Definition day_query_down (n : Z) : Env :=
  {| now := n;
     query_raises := fun k => match k with
                              | Day => Some "connection lost"
                              | Hour => None
                              end;
     message_raises := fun _ => None;
     smtp_raises := fun _ _ => None;
     smtp_handed_over := fun _ _ => false;
     emit_raises := fun _ => None;
     commit_raises := None |}.

Definition fresh (rows : list Task) : World :=
  {| db := rows; session := rows; smtp_calls := 0; emit_calls := 0;
     trace := [] |}.

(** A Pending task as [add_task] stores it: both flags false. *)
Definition new_task (i : Z) (name : string) (due : Z)
  (email : option string) : Task :=
  {| id := i; title := name; description := None; due_date := due;
     status := "Pending"; notify_email := email;
     notified_1day := false; notified_1hour := false |}.

Definition report : Task :=
  new_task 1 "report" (timedelta_minutes 50) (Some "ann@example.org").
Definition review : Task :=
  new_task 2 "review" (timedelta_hours 2) (Some "bob@example.org").
Definition backup : Task :=
  new_task 3 "backup" (timedelta_hours 23) (Some "bob@example.org").
Definition call : Task :=
  new_task 4 "call" (timedelta_minutes 30) (Some "ann@example.org").
Definition orphan : Task :=
  new_task 5 "orphan" (timedelta_minutes 30) None.

(** Two tasks stored in the order of their keys, the first one due later. *)
Definition late : Task :=
  new_task 1 "late" (timedelta_hours 2) (Some "bob@example.org").
Definition early : Task :=
  new_task 2 "early" (timedelta_minutes 50) (Some "ann@example.org").

(** A server that takes the message and then refuses the QUIT. *)
Definition quit_refused (n : Z) : Env :=
  {| now := n;
     query_raises := fun _ => None;
     message_raises := fun _ => None;
     smtp_raises := fun _ _ => Some "(500, b'bye')";
     smtp_handed_over := fun _ _ => true;
     emit_raises := fun _ => None;
     commit_raises := None |}.

(** A configuration without password. *)
Definition no_password : Config :=
  {| EMAIL_USER := "tracker@example.org"; EMAIL_PASS := "";
     DEFAULT_FROM := ""; DEFAULT_TO := "team@example.org" |}.

(** A finished task, and one due in three days. *)
Definition done : Task :=
  {| id := 6; title := "done"; description := None;
     due_date := timedelta_minutes 30; status := "Done";
     notify_email := Some "ann@example.org";
     notified_1day := false; notified_1hour := false |}.
Definition far : Task :=
  new_task 7 "far" (timedelta_days 3) (Some "ann@example.org").

(** Readers of dates that know one date each. *)
Definition read_minutes (s : string) : option Z :=
  if String.eqb s "1970-01-01T00:30" then Some (timedelta_minutes 30)
  else None.
Definition read_iso (s : string) : option Z :=
  if String.eqb s "1970-01-01 00:45:00" then Some (timedelta_minutes 45)
  else None.

(** A database that gives the key 9 and answers. *)
Definition store9 : Store :=
  {| assigned_id := 9; reload_raises := None; listing_raises := None |}.

Definition form_full : Form :=
  [("title", "dentist"); ("description", "bring the card");
   ("due_date", "1970-01-01T00:30"); ("notify_email", "ann@example.org")].
Definition form_untitled : Form :=
  [("title", ""); ("due_date", "1970-01-01T00:30")].
Definition form_bad_date : Form :=
  [("title", "dentist"); ("due_date", "tomorrow")].
Definition form_silent : Form :=
  [("title", "dentist"); ("due_date", "1970-01-01 00:45:00");
   ("notify_email", "")].

End Fixtures.

Unset Implicit Arguments.

(** ** Facts on traces and marks *)

Lemma Kind_eqb_eq a b : Kind_eqb a b = true <-> a = b.
Proof. destruct a, b; simpl; split; congruence. Qed.

Lemma Kind_eqb_refl k : Kind_eqb k k = true.
Proof. now destruct k. Qed.

Lemma sends_app e1 e2 : sends (e1 ++ e2) = (sends e1 ++ sends e2)%list.
Proof. unfold sends. now rewrite flat_map_app. Qed.

Lemma sent_ok_app k i e1 e2 :
  sent_ok k i (e1 ++ e2) = sent_ok k i e1 || sent_ok k i e2.
Proof. unfold sent_ok. now rewrite sends_app, existsb_app. Qed.

Lemma calls_app k i e1 e2 :
  calls k i (e1 ++ e2) = (calls k i e1 + calls k i e2)%nat.
Proof. unfold calls. now rewrite sends_app, filter_app, length_app. Qed.

Lemma successes_app k i e1 e2 :
  successes k i (e1 ++ e2) = (successes k i e1 + successes k i e2)%nat.
Proof. unfold successes. now rewrite sends_app, filter_app, length_app. Qed.

Lemma successes_le_calls k i evs : (successes k i evs <= calls k i evs)%nat.
Proof.
  unfold successes, calls.
  induction (sends evs) as [|s l IH]; simpl; [lia|].
  destruct (is_call i k s); simpl; [destruct (snd s); simpl; lia | lia].
Qed.

Lemma sent_ok_successes k i evs :
  sent_ok k i evs = true <-> (0 < successes k i evs)%nat.
Proof.
  unfold sent_ok, successes.
  induction (sends evs) as [|s l IH]; simpl.
  - split; [discriminate | lia].
  - destruct (is_call i k s && snd s); simpl; [split; [lia | reflexivity] | exact IH].
Qed.

Lemma sent_ok_no_success k i evs :
  successes k i evs = 0%nat -> sent_ok k i evs = false.
Proof.
  intros H. destruct (sent_ok k i evs) eqn:E; [|reflexivity].
  apply sent_ok_successes in E. lia.
Qed.

Lemma mark_id evs t : id (mark evs t) = id t.
Proof. reflexivity. Qed.

Lemma mark_app e1 e2 t : mark (e1 ++ e2) t = mark e2 (mark e1 t).
Proof.
  unfold mark; simpl. rewrite !sent_ok_app, !orb_assoc. reflexivity.
Qed.

Lemma mark_quiet evs t : sends evs = [] -> mark evs t = t.
Proof.
  intros H. unfold mark, sent_ok. rewrite H. simpl.
  rewrite !orb_false_r. now destruct t.
Qed.

Lemma mark_same_but_flags evs t : same_but_flags t (mark evs t).
Proof.
  unfold same_but_flags; simpl. repeat split; intros ->; reflexivity.
Qed.

Lemma mark_notified evs k t :
  notified k (mark evs t) = notified k t || sent_ok k (id t) evs.
Proof. now destruct k. Qed.

Lemma map_mark_ids evs rows : map id (map (mark evs) rows) = map id rows.
Proof. rewrite map_map. apply map_ext. intros; apply mark_id. Qed.

(** ** What one computation does to the world *)

Lemma steps_refl w : steps [] w w.
Proof.
  unfold steps. rewrite app_nil_r. repeat split.
  rewrite <- (map_id (session w)) at 1. apply map_ext.
  intros t. symmetry. now apply mark_quiet.
Qed.

Lemma steps_trans e1 e2 w w1 w2 :
  steps e1 w w1 -> steps e2 w1 w2 -> steps (e1 ++ e2) w w2.
Proof.
  intros (T1 & D1 & S1) (T2 & D2 & S2). unfold steps.
  rewrite T2, T1, D2, D1, S2, S1, app_assoc, map_map. repeat split.
  apply map_ext. intros t. symmetry. apply mark_app.
Qed.

Lemma steps_quiet evs w w' :
  trace w' = (trace w ++ evs)%list -> db w' = db w -> session w' = session w ->
  sends evs = [] ->
  steps evs w w'.
Proof.
  intros T D S Q. unfold steps. rewrite T, D, S. repeat split.
  rewrite <- (map_id (session w)) at 1. apply map_ext.
  intros t. symmetry. now apply mark_quiet.
Qed.

Ltac quiet_steps :=
  apply steps_quiet;
  [ simpl; rewrite <- ?app_assoc; reflexivity
  | reflexivity | reflexivity | reflexivity ].

Lemma new_events_app w w' evs :
  trace w' = (trace w ++ evs)%list -> new_events w w' = evs.
Proof.
  intros H. unfold new_events. rewrite H.
  rewrite skipn_app, skipn_all, Nat.sub_diag. reflexivity.
Qed.

Section JobFacts.

Variable str_datetime : Z -> string.
Variable cfg : Config.

(** [send_email] never raises, writes nothing, and whatever it logs is not
    a reminder record. *)
Lemma send_email_steps env to_address subject body w :
  exists ok evs w',
    send_email cfg env to_address subject body w = (Ok ok, w') /\
    steps evs w w' /\ sends evs = [].
Proof.
  unfold send_email.
  destruct (negb (truthy (EMAIL_USER cfg)) || negb (truthy (EMAIL_PASS cfg))).
  - eexists false, _, _. split; [reflexivity|].
    split; [quiet_steps | reflexivity].
  - unfold try_except, bind, EmailMessage_build, smtp_send_message.
    destruct (message_raises env _) as [e0|].
    + eexists false, _, _. split; [reflexivity|].
      split; [quiet_steps | reflexivity].
    + destruct (smtp_raises env (smtp_calls w) _) as [e|].
      * destruct (smtp_handed_over env (smtp_calls w) _).
        -- eexists false, _, _. split; [reflexivity|].
           split; [quiet_steps | reflexivity].
        -- eexists false, _, _. split; [reflexivity|].
           split; [quiet_steps | reflexivity].
      * eexists true, _, _. split; [reflexivity|].
        split; [quiet_steps | reflexivity].
Qed.

(** The attribute write is the mark of one successful reminder. *)
Lemma write_notified_mark k i r t :
  (if id t =? i then set_notified k t else t) = mark [Send i k r true] t.
Proof.
  unfold mark, sent_ok, is_call; simpl. rewrite (Z.eqb_sym i (id t)).
  destruct (id t =? i), k; simpl; rewrite ?orb_false_r, ?orb_true_r;
    now destruct t.
Qed.

Lemma emit_steps env a b c h w :
  exists evs w',
    try_except (socketio_emit env a b c) (fun e => print (h e)) w
      = (Ok tt, w') /\
    steps evs w w' /\ sends evs = [].
Proof.
  unfold try_except, socketio_emit.
  destruct (emit_raises env (emit_calls w)) as [e|];
    eexists _, _; (split; [reflexivity|]); (split; [quiet_steps | reflexivity]).
Qed.

(** One turn of a loop: it never raises; [send_email] is called once when
    the task has a recipient and not at all otherwise; the flag is written
    exactly when the call returned [True]. *)
Lemma remind_steps env k t w :
  exists evs w',
    remind str_datetime cfg env k t w = (Ok tt, w') /\
    steps evs w w' /\
    ((has_recipient cfg t = false /\ sends evs = []) \/
     (has_recipient cfg t = true /\ exists ok, sends evs = [(id t, k, ok)])).
Proof.
  unfold remind, has_recipient.
  destruct (truthy (notify_recipient cfg t)) eqn:R; simpl.
  - destruct (send_email_steps env (notify_recipient cfg t)
                (reminder_subject k t) (reminder_body str_datetime t) w)
      as (ok & e1 & w1 & E1 & S1 & Q1).
    unfold bind at 1. rewrite E1.
    unfold bind at 1. simpl.
    set (w2 := {| db := db w1; session := session w1;
                  smtp_calls := smtp_calls w1; emit_calls := emit_calls w1;
                  trace := (trace w1 ++ [Send (id t) k (notify_recipient cfg t) ok])%list |}).
    destruct ok.
    + unfold bind at 1. simpl. unfold bind at 1. simpl.
      match goal with
      | |- context [try_except ?m ?h ?w3] =>
          destruct (emit_steps env (title t) (str_datetime (due_date t))
                      (kind_when k)
                      (fun e => "[check_deadlines] socket emit failed: " ++ e) w3)
            as (e3 & w4 & E3 & S3 & Q3)
      end.
      exists (e1 ++ [Send (id t) k (notify_recipient cfg t) true] ++ e3)%list, w4.
      split; [exact E3|]. split.
      * eapply steps_trans; [exact S1|]. eapply steps_trans; [|exact S3].
        destruct S1 as (T1 & D1 & SS1). unfold steps; simpl. repeat split.
        apply map_ext. intros t0. apply write_notified_mark.
      * right. split; [reflexivity|]. exists true.
        rewrite !sends_app, Q1, Q3. reflexivity.
    + exists (e1 ++ [Send (id t) k (notify_recipient cfg t) false])%list, w2.
      split; [reflexivity|]. split.
      * eapply steps_trans; [exact S1|].
        unfold steps, w2; simpl. repeat split.
        rewrite <- (map_id (session w1)) at 1. apply map_ext. intros t0.
        unfold mark, sent_ok; simpl. rewrite !andb_false_r; simpl.
        rewrite !orb_false_r. now destruct t0.
      * right. split; [reflexivity|]. exists false.
        rewrite sends_app, Q1. reflexivity.
  - eexists _, _. split; [reflexivity|]. split.
    + quiet_steps.
    + left. split; reflexivity.
Qed.

(** A loop: [send_email] is called for the tasks of the list that have a
    recipient, once each and in the order of the list. *)
Lemma for_each_remind_steps env k l : forall w,
  exists evs w',
    for_each l (remind str_datetime cfg env k) w = (Ok tt, w') /\
    steps evs w w' /\
    map fst (sends evs)
    = map (fun t => (id t, k)) (filter (has_recipient cfg) l).
Proof.
  induction l as [|t l IH]; intros w.
  - exists [], w. split; [reflexivity|]. split; [apply steps_refl | reflexivity].
  - destruct (remind_steps env k t w) as (e1 & w1 & E1 & S1 & Q1).
    destruct (IH w1) as (e2 & w2 & E2 & S2 & Q2).
    exists (e1 ++ e2)%list, w2. split; [|split].
    + simpl. unfold bind. rewrite E1. exact E2.
    + eapply steps_trans; eassumption.
    + rewrite sends_app, map_app, Q2. simpl.
      destruct Q1 as [[R Q1]|[R [ok Q1]]]; rewrite R, Q1; reflexivity.
Qed.

End JobFacts.

(** ** The queries *)

Lemma tasks_due_steps env k w :
  exists w',
    tasks_due env k (now env) (now env + lead k) w
      = (Ok (queried env k (session w)), w') /\
    steps (query_error env k) w w'.
Proof.
  unfold tasks_due, try_except, Task_query, queried, query_error.
  destruct (query_raises env k) as [e|].
  - eexists. split; [reflexivity|]. quiet_steps.
  - exists w. split; [reflexivity | apply steps_refl].
Qed.

Lemma filter_map_commute {A B} (p : B -> bool) (f : A -> B) l :
  filter p (map f l) = map f (filter (fun x => p (f x)) l).
Proof.
  induction l as [|x l IH]; simpl; [reflexivity|].
  destruct (p (f x)); simpl; now rewrite IH.
Qed.

(** A trace whose reminders are all of the other kind leaves the query of
    this kind as it was. *)
Lemma sent_ok_other_kind k k' i evs l :
  map fst (sends evs) = map (fun t : Task => (id t, k')) l ->
  k <> k' -> sent_ok k i evs = false.
Proof.
  intros H N. unfold sent_ok.
  apply not_true_is_false. intros E.
  apply existsb_exists in E. destruct E as (s & Hin & Hs).
  apply andb_prop in Hs. destruct Hs as [Hc _].
  unfold is_call in Hc. apply andb_prop in Hc. destruct Hc as [_ Hk].
  apply Kind_eqb_eq in Hk.
  apply (in_map fst) in Hin. rewrite H in Hin.
  apply in_map_iff in Hin. destruct Hin as (t & Ht & _).
  rewrite <- Ht in Hk. simpl in Hk. congruence.
Qed.

Lemma due_filter_mark k n th evs t :
  sent_ok k (id t) evs = false ->
  due_filter k n th (mark evs t) = due_filter k n th t.
Proof.
  intros H. unfold due_filter. rewrite mark_notified, H, orb_false_r.
  reflexivity.
Qed.

Lemma queried_mark env k evs rows :
  (forall i, sent_ok k i evs = false) ->
  queried env k (map (mark evs) rows) = map (mark evs) (queried env k rows).
Proof.
  intros H. unfold queried, due_tasks.
  destruct (query_raises env k); [reflexivity|].
  rewrite filter_map_commute. f_equal. apply filter_ext.
  intros t. now apply due_filter_mark.
Qed.

Lemma reminded_mark cfg env k evs rows :
  (forall i, sent_ok k i evs = false) ->
  reminded cfg env k (map (mark evs) rows)
  = map (mark evs) (reminded cfg env k rows).
Proof.
  intros H. unfold reminded. rewrite queried_mark by assumption.
  now rewrite filter_map_commute.
Qed.

Lemma sends_query_error env k : sends (query_error env k) = [].
Proof. unfold query_error. now destruct (query_raises env k). Qed.

Lemma sends_commit_error env : sends (commit_error env) = [].
Proof. unfold commit_error. now destruct (commit_raises env). Qed.

Lemma mark_sends e e' t : sends e = sends e' -> mark e t = mark e' t.
Proof. intros H. unfold mark, sent_ok. now rewrite H. Qed.

(** ** One run of the job *)

Section RunFacts.

Variable str_datetime : Z -> string.
Variable cfg : Config.

Lemma stage_reminders_steps env w :
  exists e_day e_hour w',
    stage_reminders str_datetime cfg env w = (Ok tt, w') /\
    steps (query_error env Day ++ e_day ++ query_error env Hour ++ e_hour)
          w w' /\
    map fst (sends e_day)
    = map (fun t => (id t, Day)) (reminded cfg env Day (session w)) /\
    map fst (sends e_hour)
    = map (fun t => (id t, Hour)) (reminded cfg env Hour (session w)).
Proof.
  unfold stage_reminders.
  destruct (tasks_due_steps env Day w) as (w1 & E1 & S1).
  destruct (for_each_remind_steps str_datetime cfg env Day
              (queried env Day (session w)) w1) as (e_day & w2 & E2 & S2 & Q2).
  destruct (tasks_due_steps env Hour w2) as (w3 & E3 & S3).
  destruct (for_each_remind_steps str_datetime cfg env Hour
              (queried env Hour (session w2)) w3) as (e_hour & w4 & E4 & S4 & Q4).
  exists e_day, e_hour, w4.
  assert (S12 := steps_trans _ _ _ _ _ S1 S2).
  split; [|split; [|split]].
  - unfold bind at 1. change (timedelta_days 1) with (lead Day). rewrite E1.
    unfold bind at 1. rewrite E2.
    unfold bind at 1. change (timedelta_hours 1) with (lead Hour). rewrite E3.
    exact E4.
  - rewrite app_assoc.
    eapply steps_trans; [exact S12|]. eapply steps_trans; eassumption.
  - exact Q2.
  - rewrite Q4. fold (reminded cfg env Hour (session w2)).
    destruct S12 as (_ & _ & SS). rewrite SS.
    rewrite reminded_mark, map_map; [reflexivity|].
    intros i. eapply sent_ok_other_kind with (k' := Day); [|discriminate].
    rewrite sends_app, sends_query_error. exact Q2.
Qed.

Lemma check_deadlines_run env w :
  check_deadlines str_datetime cfg env w
  = (Ok tt,
     settle env (snd (stage_reminders str_datetime cfg env
                        (snd (app_context w))))).
Proof.
  unfold check_deadlines.
  set (w0 := snd (app_context w)).
  destruct (stage_reminders_steps env w0) as (e_day & e_hour & w1 & E1 & _).
  unfold bind at 1. change (app_context w) with (Ok tt, w0).
  cbv beta iota. unfold bind at 1. rewrite E1. cbv beta iota.
  unfold try_except, db_session_commit, settle, snd.
  destruct (commit_raises env); reflexivity.
Qed.

(** The run of the job, in one statement: it returns without raising; its
    events are those of the day query, the day loop, the hour query, the
    hour loop and the commit, in this order; each loop calls [send_email]
    for the due rows of the table that have a recipient, once each and in
    storage order; the table afterwards is the old one with the successful
    reminders marked, or the old one when the commit raised. *)
Theorem check_deadlines_summary env w :
  exists e_day e_hour w',
    check_deadlines str_datetime cfg env w = (Ok tt, w') /\
    scan_events str_datetime cfg env w
    = (query_error env Day ++ e_day ++ query_error env Hour ++ e_hour
       ++ commit_error env)%list /\
    trace w' = (trace w ++ scan_events str_datetime cfg env w)%list /\
    map fst (sends e_day)
    = map (fun t => (id t, Day)) (reminded cfg env Day (db w)) /\
    map fst (sends e_hour)
    = map (fun t => (id t, Hour)) (reminded cfg env Hour (db w)) /\
    staged str_datetime cfg env w = map (mark (scan_events str_datetime cfg env w)) (db w) /\
    db w' = match commit_raises env with
            | Some _ => db w
            | None => staged str_datetime cfg env w
            end /\
    session w' = db w'.
Proof.
  unfold scan_events, staged. rewrite check_deadlines_run.
  set (w0 := snd (app_context w)).
  unfold bind. change (app_context w) with (Ok tt, w0). cbv beta iota.
  destruct (stage_reminders_steps env w0)
    as (e_day & e_hour & w1 & E1 & (T1 & D1 & SS1) & Qd & Qh).
  rewrite E1. cbn [snd].
  change (trace w0) with (trace w) in T1.
  change (db w0) with (db w) in D1.
  change (session w0) with (db w) in SS1, Qd, Qh.
  exists e_day, e_hour, (settle env w1).
  assert (T : trace (settle env w1)
              = (trace w ++ query_error env Day ++ e_day
                 ++ query_error env Hour ++ e_hour ++ commit_error env)%list).
  { unfold settle, commit_error. destruct (commit_raises env); simpl;
      rewrite T1, <- ?app_assoc, ?app_nil_r; reflexivity. }
  rewrite (new_events_app w _ _ T).
  split; [reflexivity|]. split; [reflexivity|]. split; [exact T|].
  split; [exact Qd|]. split; [exact Qh|]. split.
  { rewrite SS1. apply map_ext. intros t. apply mark_sends.
    rewrite !sends_app, sends_commit_error, app_nil_r. reflexivity. }
  unfold settle. destruct (commit_raises env); simpl; auto.
Qed.

End RunFacts.

(** ** Counting the calls of [send_email] *)

Lemma unique_ids_filter p rows : unique_ids rows -> unique_ids (filter p rows).
Proof.
  unfold unique_ids. induction rows as [|a rows IH]; simpl; intros H; [exact H|].
  inversion H as [|? ? Hn Hd]; subst.
  destruct (p a); simpl; [|now apply IH].
  constructor; [|now apply IH].
  intros Hin. apply Hn. apply in_map_iff in Hin.
  destruct Hin as (t & E & Ht). apply filter_In in Ht.
  apply in_map_iff. exists t. tauto.
Qed.

Lemma unique_in_eq rows t t' :
  unique_ids rows -> In t rows -> In t' rows -> id t = id t' -> t = t'.
Proof.
  unfold unique_ids. induction rows as [|a rows IH]; simpl; intros H Ht Ht' E;
    [contradiction|].
  inversion H as [|? ? Hn Hd]; subst.
  destruct Ht as [<-|Ht], Ht' as [<-|Ht']; auto.
  - exfalso. apply Hn. rewrite E. now apply in_map.
  - exfalso. apply Hn. rewrite <- E. now apply in_map.
Qed.

Lemma with_id_unique i rows :
  unique_ids rows -> (List.length (with_id i rows) <= 1)%nat.
Proof.
  unfold unique_ids, with_id.
  induction rows as [|a rows IH]; simpl; intros H; [lia|].
  inversion H as [|? ? Hn Hd]; subst.
  destruct (id a =? i) eqn:E; simpl; [|now apply IH].
  apply Z.eqb_eq in E.
  assert (Z0 : filter (fun t => id t =? i) rows = []).
  { clear IH H Hd. induction rows as [|b rows IH]; simpl in *; [reflexivity|].
    destruct (id b =? i) eqn:Eb; [|apply IH; tauto].
    exfalso. apply Hn. left. apply Z.eqb_eq in Eb. congruence. }
  rewrite Z0. simpl. lia.
Qed.

Lemma with_id_none i rows :
  (forall t, In t rows -> id t <> i) -> with_id i rows = [].
Proof.
  unfold with_id. induction rows as [|a rows IH]; simpl; intros H; [reflexivity|].
  destruct (id a =? i) eqn:E.
  - exfalso. apply (H a); [now left | now apply Z.eqb_eq].
  - apply IH. intros t Ht. apply H. now right.
Qed.

Lemma count_of_list k k' i (l : list (Z * Kind * bool)) : forall L : list Task,
  map fst l = map (fun t => (id t, k')) L ->
  List.length (filter (is_call i k) l)
  = if Kind_eqb k' k then List.length (with_id i L) else 0%nat.
Proof.
  unfold with_id.
  induction l as [|s l IH]; intros [|a L] H; simpl in H; try discriminate.
  - simpl. now destruct (Kind_eqb k' k).
  - injection H as Hs Hl. specialize (IH L Hl).
    cbn [filter]. unfold is_call at 1. rewrite Hs. cbn [fst snd].
    destruct (id a =? i), (Kind_eqb k' k); cbn [andb List.length]; lia.
Qed.

Lemma calls_of_list k k' i evs (L : list Task) :
  map fst (sends evs) = map (fun t => (id t, k')) L ->
  calls k i evs
  = if Kind_eqb k' k then List.length (with_id i L) else 0%nat.
Proof. apply count_of_list. Qed.




Lemma calls_quiet k i evs : sends evs = [] -> calls k i evs = 0%nat.
Proof. unfold calls. now intros ->. Qed.

Lemma reminded_in cfg env k rows t :
  In t (reminded cfg env k rows) ->
  In t rows /\ has_recipient cfg t = true /\ query_raises env k = None /\
  due_filter k (now env) (now env + lead k) t = true.
Proof.
  unfold reminded, queried, due_tasks. intros H.
  apply filter_In in H. destruct H as [H R].
  destruct (query_raises env k); [contradiction|].
  apply filter_In in H. tauto.
Qed.

Lemma due_filter_true k n th t :
  due_filter k n th t = true <->
  status t = "Pending" /\ n < due_date t <= th /\ notified k t = false.
Proof.
  unfold due_filter. rewrite !andb_true_iff, String.eqb_eq, Z.leb_le, Z.gtb_lt.
  rewrite eqb_true_iff. tauto.
Qed.

(** ** Facts on one run *)

Section ScanFacts.

Variable str_datetime : Z -> string.
Variable cfg : Config.

Local Abbreviation scan := (check_deadlines str_datetime cfg).
Local Abbreviation events := (scan_events str_datetime cfg).

Lemma scan_returns env w : fst (scan env w) = Ok tt.
Proof.
  destruct (check_deadlines_summary str_datetime cfg env w)
    as (e1 & e2 & w' & E & _).
  now rewrite E.
Qed.

Lemma scan_trace env w :
  trace (snd (scan env w)) = (trace w ++ events env w)%list.
Proof.
  destruct (check_deadlines_summary str_datetime cfg env w)
    as (e1 & e2 & w' & E & _ & T & _).
  now rewrite E.
Qed.

Lemma scan_staged env w :
  staged str_datetime cfg env w = map (mark (events env w)) (db w).
Proof.
  destruct (check_deadlines_summary str_datetime cfg env w)
    as (e1 & e2 & w' & _ & _ & _ & _ & _ & S & _).
  exact S.
Qed.

Lemma scan_db env w :
  db (snd (scan env w))
  = match commit_raises env with
    | Some _ => db w
    | None => map (mark (events env w)) (db w)
    end.
Proof.
  destruct (check_deadlines_summary str_datetime cfg env w)
    as (e1 & e2 & w' & E & _ & _ & _ & _ & S & D & _).
  rewrite E. simpl. rewrite D.
  destruct (commit_raises env); [reflexivity | exact S].
Qed.

Lemma scan_ids env w : map id (db (snd (scan env w))) = map id (db w).
Proof.
  rewrite scan_db. destruct (commit_raises env); [reflexivity|].
  apply map_mark_ids.
Qed.

Lemma scan_calls env w k i :
  calls k i (events env w)
  = List.length (with_id i (reminded cfg env k (db w))).
Proof.
  destruct (check_deadlines_summary str_datetime cfg env w)
    as (e1 & e2 & w' & _ & V & _ & Q1 & Q2 & _).
  rewrite V, !calls_app.
  rewrite (calls_quiet k i _ (sends_query_error env Day)),
    (calls_quiet k i _ (sends_query_error env Hour)),
    (calls_quiet k i _ (sends_commit_error env)).
  rewrite (calls_of_list k Day i e1 _ Q1), (calls_of_list k Hour i e2 _ Q2).
  destruct k; simpl; lia.
Qed.


(** No call without an eligible row; at most one call per row and
    reminder. *)
Lemma scan_calls_le env w k i :
  unique_ids (db w) -> (calls k i (events env w) <= 1)%nat.
Proof.
  intros U. rewrite scan_calls. apply with_id_unique.
  unfold reminded, queried.
  destruct (query_raises env k); [constructor|].
  now apply unique_ids_filter, unique_ids_filter.
Qed.

Lemma scan_no_call env w k i :
  (forall t, In t (db w) -> id t = i ->
             notified k t = true \/ has_recipient cfg t = false) ->
  calls k i (events env w) = 0%nat.
Proof.
  intros H. rewrite scan_calls, with_id_none; [reflexivity|].
  intros t Ht E. apply reminded_in in Ht. destruct Ht as (I & R & _ & D).
  apply due_filter_true in D.
  destruct (H t I E); intuition congruence.
Qed.

End ScanFacts.

(** ** Facts on repeated runs *)

Lemma new_events_refl w : new_events w w = [].
Proof. unfold new_events. apply skipn_all. Qed.

Lemma Forall2_map_mark (R : Task -> Task -> Prop) evs rows :
  (forall t, In t rows -> R t (mark evs t)) ->
  Forall2 R rows (map (mark evs) rows).
Proof.
  induction rows as [|t rows IH]; simpl; intros H; constructor.
  - apply H. now left.
  - apply IH. intros t' Ht'. apply H. now right.
Qed.

Lemma Forall2_same (R : Task -> Task -> Prop) rows :
  (forall t, In t rows -> R t t) -> Forall2 R rows rows.
Proof.
  induction rows as [|t rows IH]; simpl; intros H; constructor.
  - apply H. now left.
  - apply IH. intros t' Ht'. apply H. now right.
Qed.

Lemma mark_unsent evs t :
  sent_ok Day (id t) evs = false -> sent_ok Hour (id t) evs = false ->
  mark evs t = t.
Proof.
  intros D H. unfold mark. rewrite D, H, !orb_false_r. now destruct t.
Qed.

Section RunsFacts.

Variable str_datetime : Z -> string.
Variable cfg : Config.

Local Abbreviation scan := (check_deadlines str_datetime cfg).
Local Abbreviation events := (scan_events str_datetime cfg).
Local Abbreviation runs := (run_scans str_datetime cfg).

Lemma scan_sends env w :
  map fst (sends (events env w))
  = (map (fun t => (id t, Day)) (reminded cfg env Day (db w))
     ++ map (fun t => (id t, Hour)) (reminded cfg env Hour (db w)))%list.
Proof.
  destruct (check_deadlines_summary str_datetime cfg env w)
    as (e1 & e2 & w' & _ & V & _ & Q1 & Q2 & _).
  rewrite V.
  rewrite !sends_app, !sends_query_error, sends_commit_error, app_nil_r.
  simpl. now rewrite map_app, Q1, Q2.
Qed.

Lemma run_scans_trace envs : forall w,
  exists evs, trace (runs envs w) = (trace w ++ evs)%list.
Proof.
  induction envs as [|env envs IH]; intros w; simpl.
  - exists []. now rewrite app_nil_r.
  - destruct (IH (snd (scan env w))) as (evs & E).
    exists (events env w ++ evs)%list.
    simpl. rewrite E.
    rewrite (scan_trace str_datetime cfg env w).
    now rewrite app_assoc.
Qed.

Lemma run_scans_cons env envs w :
  new_events w (runs (env :: envs) w)
  = (events env w
     ++ new_events (snd (scan env w)) (runs envs (snd (scan env w))))%list.
Proof.
  destruct (run_scans_trace envs (snd (scan env w))) as (evs & E).
  rewrite (new_events_app _ _ _ E).
  apply new_events_app. simpl. rewrite E.
  rewrite (scan_trace str_datetime cfg env w).
  now rewrite app_assoc.
Qed.

(** Rows that carry the flag stay flagged, in the table of the next run. *)
Lemma scan_keeps_flag env w k i :
  (forall t, In t (db w) -> id t = i -> notified k t = true) ->
  forall t, In t (db (snd (scan env w))) -> id t = i -> notified k t = true.
Proof.
  intros H t. rewrite scan_db.
  destruct (commit_raises env); [apply H|].
  intros Ht E. apply in_map_iff in Ht. destruct Ht as (t0 & <- & Ht0).
  rewrite mark_notified, (H t0 Ht0 E). reflexivity.
Qed.

(** A successful reminder that was committed flags every row of that key. *)
Lemma scan_sets_flag env w k i :
  commit_raises env = None ->
  sent_ok k i (events env w) = true ->
  forall t, In t (db (snd (scan env w))) -> id t = i -> notified k t = true.
Proof.
  intros C S t. rewrite scan_db, C.
  intros Ht E. apply in_map_iff in Ht. destruct Ht as (t0 & <- & Ht0).
  simpl in E. rewrite mark_notified, E. rewrite S.
  apply orb_true_r.
Qed.

Lemma runs_successes envs : forall w i k,
  unique_ids (db w) ->
  Forall (fun env => commit_raises env = None) envs ->
  (successes k i (new_events w (runs envs w)) <= 1)%nat /\
  ((forall t, In t (db w) -> id t = i -> notified k t = true) ->
   calls k i (new_events w (runs envs w)) = 0%nat).
Proof.
  induction envs as [|env envs IH]; intros w i k U C.
  - simpl. rewrite new_events_refl. split; [apply Nat.le_0_l | reflexivity].
  - inversion C as [|? ? C1 C2]; subst.
    rewrite run_scans_cons, successes_app, calls_app.
    assert (U1 : unique_ids (db (snd (scan env w)))).
    { unfold unique_ids. now rewrite scan_ids. }
    destruct (IH (snd (scan env w)) i k U1 C2) as [IH1 IH2].
    split.
    + pose proof (successes_le_calls k i (events env w)) as L1.
      pose proof (scan_calls_le str_datetime cfg env w k i U) as L2.
      destruct (successes k i (events env w)) as [|n] eqn:S1; [lia|].
      assert (S : sent_ok k i (events env w) = true).
      { apply sent_ok_successes. lia. }
      pose proof (successes_le_calls k i
                    (new_events (snd (scan env w))
                       (runs envs (snd (scan env w))))) as L3.
      rewrite (IH2 (scan_sets_flag env w k i C1 S)) in L3. lia.
    + intros F.
      rewrite (IH2 (scan_keeps_flag env w k i F)).
      
      rewrite (scan_no_call str_datetime cfg env w k i); [reflexivity|].
      intros t Ht E. left. now apply F.
Qed.

Lemma scan_no_recipient env w t :
  unique_ids (db w) -> In t (db w) -> has_recipient cfg t = false ->
  In t (db (snd (scan env w))) /\
  forall k, calls k (id t) (events env w) = 0%nat.
Proof.
  intros U Ht R.
  assert (Z0 : forall k, calls k (id t) (events env w) = 0%nat).
  { intros k. apply (scan_no_call str_datetime cfg).
    intros t' Ht' E. right.
    now rewrite (unique_in_eq (db w) t' t U Ht' Ht E). }
  split; [|exact Z0].
  rewrite scan_db. destruct (commit_raises env); [exact Ht|].
  apply in_map_iff. exists t. split; [|exact Ht].
  apply mark_unsent; apply sent_ok_no_success;
    pose proof (successes_le_calls Day (id t) (events env w));
    pose proof (successes_le_calls Hour (id t) (events env w));
    pose proof (Z0 Day); pose proof (Z0 Hour); lia.
Qed.

Lemma runs_no_recipient envs : forall w t,
  unique_ids (db w) -> In t (db w) -> has_recipient cfg t = false ->
  In t (db (runs envs w)) /\
  forall k, calls k (id t) (new_events w (runs envs w)) = 0%nat.
Proof.
  induction envs as [|env envs IH]; intros w t U Ht R.
  - simpl. rewrite new_events_refl. split; [exact Ht | reflexivity].
  - destruct (scan_no_recipient env w t U Ht R) as [Ht1 Z1].
    assert (U1 : unique_ids (db (snd (scan env w)))).
    { unfold unique_ids. now rewrite scan_ids. }
    destruct (IH (snd (scan env w)) t U1 Ht1 R) as [Ht2 Z2].
    split; [exact Ht2|].
    intros k. rewrite run_scans_cons, calls_app, Z1, Z2. reflexivity.
Qed.

End RunsFacts.

(** ** More on traces and on sorted rows *)

Lemma sent_ok_in k i evs :
  sent_ok k i evs = true <-> In (i, k, true) (sends evs).
Proof.
  unfold sent_ok. rewrite existsb_exists. split.
  - intros ([[j k'] ok] & Hin & H). unfold is_call in H. simpl in H.
    apply andb_prop in H. destruct H as [H ->].
    apply andb_prop in H. destruct H as [Hj Hk].
    apply Z.eqb_eq in Hj. apply Kind_eqb_eq in Hk. now subst.
  - intros H. exists (i, k, true). split; [exact H|].
    unfold is_call. simpl. now rewrite Z.eqb_refl, Kind_eqb_refl.
Qed.

(** A call that returned [False] is a call that is not a success. *)
Lemma failed_call_counts k i evs :
  In (i, k, false) (sends evs) ->
  (successes k i evs + 1 <= calls k i evs)%nat.
Proof.
  unfold successes, calls.
  induction (sends evs) as [|s l IH]; intros H; [contradiction|].
  cbn [filter].
  destruct H as [->|H].
  - assert (C : is_call i k (i, k, false) = true).
    { unfold is_call. simpl. now rewrite Z.eqb_refl, Kind_eqb_refl. }
    rewrite C. cbn [snd andb List.length].
    assert (L : (List.length (filter (fun s => is_call i k s && snd s) l)
                 <= List.length (filter (is_call i k) l))%nat).
    { clear. induction l as [|s l IH]; simpl; [lia|].
      destruct (is_call i k s); simpl; [destruct (snd s); simpl; lia | lia]. }
    lia.
  - specialize (IH H).
    destruct (is_call i k s); simpl; [destruct (snd s); simpl; lia | lia].
Qed.


Lemma sends_in_reminded i k ok evs (L L' : list Task) :
  map fst (sends evs)
  = (map (fun t => (id t, Day)) L ++ map (fun t => (id t, Hour)) L')%list ->
  In (i, k, ok) (sends evs) ->
  exists t, id t = i /\ In t (match k with Day => L | Hour => L' end).
Proof.
  intros H Hin. apply (in_map fst) in Hin. rewrite H in Hin. simpl in Hin.
  apply in_app_or in Hin.
  destruct Hin as [Hin|Hin]; apply in_map_iff in Hin;
    destruct Hin as (t & E & Ht); injection E as E1 E2; subst; eauto.
Qed.

Lemma due_ascending_cons a rows :
  due_ascending (a :: rows) = true <->
  (forall b, In b rows -> due_date a <= due_date b) /\
  due_ascending rows = true.
Proof.
  revert a. induction rows as [|b rows IH]; intros a.
  - simpl. split; [intros _; split; [contradiction | reflexivity] | reflexivity].
  - change (due_ascending (a :: b :: rows))
      with ((due_date a <=? due_date b) && due_ascending (b :: rows)).
    rewrite andb_true_iff, Z.leb_le. split.
    + intros [L S]. split; [|exact S].
      intros c [<-|Hc]; [exact L|].
      apply IH in S. destruct S as [S _]. specialize (S c Hc). lia.
    + intros [L S]. split; [apply L; now left | exact S].
Qed.

Lemma due_ascending_filter p rows :
  due_ascending rows = true -> due_ascending (filter p rows) = true.
Proof.
  induction rows as [|a rows IH]; [reflexivity|].
  intros H. apply due_ascending_cons in H. destruct H as [L S].
  simpl. destruct (p a); [|now apply IH].
  apply due_ascending_cons. split; [|now apply IH].
  intros b Hb. apply filter_In in Hb. apply L. tauto.
Qed.

(** ** The two loops of a run *)

Section ScanLoops.

Variable str_datetime : Z -> string.
Variable cfg : Config.

(** When neither query raises, a run is: the day loop over the rows of the
    table that the day query selects, in [w1]; then the hour loop over the
    rows that the hour query selects, as objects of the session (they carry
    the day flags just written); then the commit. *)
Lemma scan_loops env w :
  query_raises env Day = None -> query_raises env Hour = None ->
  exists w1,
    for_each (due_tasks Day (now env) (db w))
      (remind str_datetime cfg env Day) (snd (app_context w))
    = (Ok tt, w1) /\
    session w1 = map (mark (new_events w w1)) (db w) /\
    check_deadlines str_datetime cfg env w
    = (Ok tt,
       settle env
         (snd (for_each
                 (map (mark (new_events w w1)) (due_tasks Hour (now env) (db w)))
                 (remind str_datetime cfg env Hour) w1))).
Proof.
  intros Qd Qh. set (w0 := snd (app_context w)).
  destruct (for_each_remind_steps str_datetime cfg env Day
              (due_tasks Day (now env) (db w)) w0)
    as (e1 & w1 & E1 & S1 & Q1).
  exists w1.
  assert (N : new_events w w1 = e1).
  { destruct S1 as (T & _). apply (new_events_app w w1 e1). exact T. }
  assert (SS : session w1 = map (mark e1) (db w)).
  { destruct S1 as (_ & _ & SS). exact SS. }
  rewrite N. split; [exact E1|]. split; [exact SS|].
  rewrite check_deadlines_run. fold w0. f_equal. f_equal. f_equal.
  unfold stage_reminders, tasks_due, try_except, Task_query.
  unfold bind at 1. rewrite Qd. cbv beta iota.
  change (filter (due_filter Day (now env) (now env + timedelta_days 1))
            (session w0))
    with (due_tasks Day (now env) (db w)).
  unfold bind at 1. rewrite E1. cbv beta iota.
  unfold bind at 1. rewrite Qh. cbv beta iota.
  rewrite SS.
  change (filter (due_filter Hour (now env) (now env + timedelta_hours 1))
            (map (mark e1) (db w)))
    with (due_tasks Hour (now env) (map (mark e1) (db w))).
  unfold due_tasks at 1. rewrite filter_map_commute.
  f_equal. f_equal. apply filter_ext. intros t.
  apply due_filter_mark.
  eapply sent_ok_other_kind with (k' := Day); [exact Q1 | discriminate].
Qed.

End ScanLoops.

(** * The properties of the scan *)

Section Claims.

Variable str_datetime : Z -> string.
Variable cfg : Config.

Local Abbreviation scan := (check_deadlines str_datetime cfg).
Local Abbreviation events := (scan_events str_datetime cfg).
Local Abbreviation runs := (run_scans str_datetime cfg).

(** C10 (frame property of the scan).  Whatever the outside world does, a
    run of [check_deadlines] leaves the table with the same rows in the same
    places, and in every row the columns id, title, description, due_date,
    status and notify_email are unchanged; a flag that was true is still
    true, hence the only possible change is a flag going from false to
    true. *)
Theorem scan_changes_only_flags (env : Env) (w : World) :
  Forall2 same_but_flags (db w) (db (snd (scan env w))).
Proof.
  rewrite scan_db. destruct (commit_raises env).
  - apply Forall2_same. intros t _. unfold same_but_flags. tauto.
  - apply Forall2_map_mark. intros t _. apply mark_same_but_flags.
Qed.

(** C2, as the code has it.  The flag updates of a run are not persisted one
    task at a time: they are staged in the session (every successful
    reminder of the run is marked there) and stored by the single commit
    of line 207.  When the commit goes through the table becomes the staged
    rows, all of them; when it raises, the rollback of line 209 leaves the
    table exactly as it was before the run, for every task. *)
Theorem commit_is_all_or_nothing (env : Env) (w : World) :
  staged str_datetime cfg env w = map (mark (events env w)) (db w) /\
  db (snd (scan env w))
  = match commit_raises env with
    | Some _ => db w
    | None => staged str_datetime cfg env w
    end.
Proof.
  split; [apply scan_staged|].
  rewrite scan_db, scan_staged. reflexivity.
Qed.

(** C5, as the code has it.  A run of [check_deadlines] returns no value
    (Python's None), never a summary with counts; it returns normally
    whatever raises inside (a query, the SMTP dialogue, the socket emit,
    the commit).  A failed query and a failed commit are reported by a
    printed line only: the events of the run are the report of the day
    query (if it failed), the events of the day loop, the report of the
    hour query, the events of the hour loop and the report of the
    commit. *)
Theorem scan_returns_nothing_and_never_raises (env : Env) (w : World) :
  exists e_day e_hour,
    scan env w = (Ok tt, snd (scan env w)) /\
    events env w
    = (query_error env Day ++ e_day ++ query_error env Hour ++ e_hour
       ++ commit_error env)%list /\
    map fst (sends e_day)
    = map (fun t => (id t, Day)) (reminded cfg env Day (db w)) /\
    map fst (sends e_hour)
    = map (fun t => (id t, Hour)) (reminded cfg env Hour (db w)).
Proof.
  destruct (check_deadlines_summary str_datetime cfg env w)
    as (e1 & e2 & w' & E & V & _ & Q1 & Q2 & _).
  exists e1, e2. rewrite E. simpl. auto.
Qed.

(** C9 (query failure degrades one reminder only).  When the query of
    reminder [k] raises, the run still returns normally and prints the
    error; [send_email] is not called for reminder [k] of any task and the
    flag of [k] is unchanged in every row.  The other reminder is served as
    usual: the calls of [send_email] of the run are exactly those for the
    rows its own query selects (in storage order, with a recipient), the
    successful ones are staged, and they are stored when the commit goes
    through. *)
Theorem query_failure_degrades_one_kind
  (env : Env) (w : World) (k : Kind) (e : string) :
  query_raises env k = Some e ->
  fst (scan env w) = Ok tt /\
  In (Print ("[check_deadlines] DB query (" ++ kind_name k ++ ") failed: "
             ++ e)) (events env w) /\
  (forall i, calls k i (events env w) = 0%nat) /\
  Forall2 (fun t t' => notified k t' = notified k t)
          (db w) (db (snd (scan env w))) /\
  (forall k', k' <> k ->
     map fst (sends (events env w))
     = map (fun t => (id t, k')) (reminded cfg env k' (db w)) /\
     (query_raises env k' = None ->
      reminded cfg env k' (db w)
      = filter (has_recipient cfg) (due_tasks k' (now env) (db w)))) /\
  staged str_datetime cfg env w = map (mark (events env w)) (db w) /\
  (commit_raises env = None ->
   db (snd (scan env w)) = staged str_datetime cfg env w).
Proof.
  intros Q.
  assert (R : reminded cfg env k (db w) = []).
  { unfold reminded, queried. now rewrite Q. }
  assert (Z0 : forall i, calls k i (events env w) = 0%nat).
  { intros i. now rewrite scan_calls, R. }
  split; [apply scan_returns|]. split; [|split; [exact Z0|split; [|split; [|split]]]].
  - destruct (check_deadlines_summary str_datetime cfg env w)
      as (e1 & e2 & w' & _ & V & _).
    rewrite V.
    assert (P : In (Print ("[check_deadlines] DB query (" ++ kind_name k
                           ++ ") failed: " ++ e)) (query_error env k)).
    { unfold query_error. rewrite Q. now left. }
    destruct k; repeat (apply in_or_app; (now left) || right); exact P.
  - rewrite scan_db. destruct (commit_raises env).
    + apply Forall2_same. reflexivity.
    + apply Forall2_map_mark. intros t _.
      rewrite mark_notified, (sent_ok_no_success k (id t)), orb_false_r;
        [reflexivity|].
      pose proof (successes_le_calls k (id t) (events env w)) as L.
      rewrite Z0 in L. lia.
  - intros k' N. split.
    + rewrite scan_sends.
      destruct k, k'; try congruence; rewrite R; simpl;
        [reflexivity | apply app_nil_r].
    + intros Q'. unfold reminded, queried. now rewrite Q'.
  - apply scan_staged.
  - intros C. rewrite scan_db, C, scan_staged. reflexivity.
Qed.

(** C3 (query window).  When its two queries do not raise, a run of
    [check_deadlines] is the day loop over [due_tasks Day], the hour loop
    over [due_tasks Hour] (as objects of the session) and the commit, where
    the query of each reminder returns exactly the rows of the table with
    status Pending, a due date after [now] and at most [now + 24h] (day) or
    [now + 1h] (hour), and the flag of that reminder false; [send_email] is
    called for exactly those of them that have a recipient.  In particular a
    Pending row due at [now + 23h] is selected by the day query (while its
    day flag is false) and not by the hour query; a Pending row due at
    [now + 30min] is selected by both, each while its flag is false; a row
    due at [now] or before is selected by neither. *)
Theorem query_window_correct (env : Env) (w : World) :
  query_raises env Day = None -> query_raises env Hour = None ->
  (exists w1,
     for_each (due_tasks Day (now env) (db w))
       (remind str_datetime cfg env Day) (snd (app_context w))
     = (Ok tt, w1) /\
     scan env w
     = (Ok tt,
        settle env
          (snd (for_each
                  (map (mark (new_events w w1))
                     (due_tasks Hour (now env) (db w)))
                  (remind str_datetime cfg env Hour) w1)))) /\
  (forall t,
     In t (due_tasks Day (now env) (db w)) <->
     In t (db w) /\ status t = "Pending" /\
     now env < due_date t <= now env + timedelta_hours 24 /\
     notified_1day t = false) /\
  (forall t,
     In t (due_tasks Hour (now env) (db w)) <->
     In t (db w) /\ status t = "Pending" /\
     now env < due_date t <= now env + timedelta_hours 1 /\
     notified_1hour t = false) /\
  (forall i k,
     In (i, k) (map fst (sends (events env w))) <->
     exists t, In t (due_tasks k (now env) (db w)) /\ id t = i /\
               has_recipient cfg t = true) /\
  (forall t,
     In t (db w) -> status t = "Pending" ->
     due_date t = now env + timedelta_hours 23 ->
     (notified_1day t = false -> In t (due_tasks Day (now env) (db w))) /\
     ~ In t (due_tasks Hour (now env) (db w))) /\
  (forall t,
     In t (db w) -> status t = "Pending" ->
     due_date t = now env + timedelta_minutes 30 ->
     (notified_1day t = false -> In t (due_tasks Day (now env) (db w))) /\
     (notified_1hour t = false -> In t (due_tasks Hour (now env) (db w)))) /\
  (forall t,
     due_date t <= now env ->
     ~ In t (due_tasks Day (now env) (db w)) /\
     ~ In t (due_tasks Hour (now env) (db w))).
Proof.
  intros Qd Qh.
  assert (W : forall k t,
             In t (due_tasks k (now env) (db w)) <->
             In t (db w) /\ status t = "Pending" /\
             now env < due_date t <= now env + lead k /\
             notified k t = false).
  { intros k t. unfold due_tasks. rewrite filter_In, due_filter_true.
    tauto. }
  split.
  { destruct (scan_loops str_datetime cfg env w Qd Qh) as (w1 & A & _ & B).
    exists w1. split; assumption. }
  split; [exact (W Day)|]. split; [exact (W Hour)|].
  split.
  { intros i k. rewrite scan_sends.
    assert (R : forall k', reminded cfg env k' (db w)
                           = filter (has_recipient cfg)
                               (due_tasks k' (now env) (db w))).
    { intros k'. unfold reminded, queried. now destruct k'; rewrite ?Qd, ?Qh. }
    rewrite !R, in_app_iff, !in_map_iff. split.
    - intros [(t & E & I)|(t & E & I)]; injection E as E1 E2; subst;
        apply filter_In in I; exists t; tauto.
    - intros (t & I & E & H). subst i.
      destruct k; [left | right]; exists t;
        (split; [reflexivity | apply filter_In; tauto]). }
  unfold timedelta_hours, timedelta_minutes.
  split; [|split].
  - intros t I P D. rewrite !W. unfold lead, timedelta_days, timedelta_hours.
    split; [intros F; repeat split; auto; lia | intros (_ & _ & B & _); lia].
  - intros t I P D. rewrite !W. unfold lead, timedelta_days, timedelta_hours.
    split; intros F; repeat split; auto; lia.
  - intros t D. rewrite !W. split; intros (_ & _ & B & _); lia.
Qed.

(** C8, as the code has it.  The two queries have no ORDER BY.  When they do
    not raise, the day loop of a run goes over the matching rows of the
    table in storage order and the hour loop likewise, and [send_email] is
    called in that order: first the day reminders in storage order, then
    the hour reminders in storage order.  The rows of a loop are in
    ascending order of due_date when the stored rows are, not otherwise.
    When no row matches the query of a reminder, its loop goes over the
    empty list: the run makes no call for that reminder and still returns
    normally. *)
Theorem query_keeps_storage_order (env : Env) (w : World) :
  query_raises env Day = None -> query_raises env Hour = None ->
  (exists w1,
     for_each
       (filter (due_filter Day (now env) (now env + timedelta_days 1)) (db w))
       (remind str_datetime cfg env Day) (snd (app_context w))
     = (Ok tt, w1) /\
     scan env w
     = (Ok tt,
        settle env
          (snd (for_each
                  (map (mark (new_events w w1))
                     (filter
                        (due_filter Hour (now env)
                           (now env + timedelta_hours 1)) (db w)))
                  (remind str_datetime cfg env Hour) w1)))) /\
  map fst (sends (events env w))
  = (map (fun t => (id t, Day))
       (filter (has_recipient cfg) (due_tasks Day (now env) (db w)))
     ++ map (fun t => (id t, Hour))
          (filter (has_recipient cfg) (due_tasks Hour (now env) (db w))))%list /\
  (forall k,
     due_ascending (db w) = true ->
     due_ascending (due_tasks k (now env) (db w)) = true) /\
  (forall k,
     (forall t, In t (db w) ->
                due_filter k (now env) (now env + lead k) t = false) ->
     due_tasks k (now env) (db w) = [] /\
     (forall i, calls k i (events env w) = 0%nat) /\
     fst (scan env w) = Ok tt).
Proof.
  intros Qd Qh.
  assert (R : forall k, reminded cfg env k (db w)
                        = filter (has_recipient cfg)
                            (due_tasks k (now env) (db w))).
  { intros k. unfold reminded, queried. now destruct k; rewrite ?Qd, ?Qh. }
  split.
  { destruct (scan_loops str_datetime cfg env w Qd Qh) as (w1 & A & _ & B).
    exists w1. split; assumption. }
  split; [rewrite scan_sends, !R; reflexivity|].
  split; [intros k; apply due_ascending_filter|].
  intros k H.
  assert (E : due_tasks k (now env) (db w) = []).
  { unfold due_tasks. revert H. generalize (db w) as l.
    induction l as [|a l IH]; intros H; [reflexivity|].
    simpl. rewrite (H a) by now left.
    apply IH. intros t Ht. apply H. now right. }
  split; [exact E|]. split; [|apply scan_returns].
  intros i. rewrite scan_calls, R, E. reflexivity.
Qed.

(** C7 (missing recipient).  The recipient of a task is its notify_email
    when it has a non-empty one and the configured default otherwise.  A
    task whose recipient is empty (no notify_email and an empty default) is
    skipped: over any number of runs, whatever the outside world does,
    [send_email] is never called for it, for neither reminder, and its row
    stays in the table as it is, flags included. *)
Theorem missing_recipient_is_skipped
  (envs : list Env) (w : World) (t : Task) :
  unique_ids (db w) -> In t (db w) ->
  truthy (notify_recipient cfg t) = false ->
  notify_recipient cfg t
  = match notify_email t with
    | Some s => if truthy s then s else DEFAULT_TO cfg
    | None => DEFAULT_TO cfg
    end /\
  In t (db (runs envs w)) /\
  (forall k, calls k (id t) (new_events w (runs envs w)) = 0%nat) /\
  (forall k, successes k (id t) (new_events w (runs envs w)) = 0%nat).
Proof.
  intros U I R.
  destruct (runs_no_recipient str_datetime cfg envs w t U I R) as [I' Z0].
  split; [reflexivity|]. split; [exact I'|]. split; [exact Z0|].
  intros k.
  pose proof (successes_le_calls k (id t) (new_events w (runs envs w))) as L.
  rewrite Z0 in L. lia.
Qed.

(** C1 (at most once on the success path).  Let the job run any number of
    times, each commit going through.  Then for every task and each of the
    two reminders, [send_email] returns [True] at most once over all the
    runs: a success sets the flag, the commit stores it, and a flagged row
    is not selected again; a row that carries the flag from the start is
    never sent to.  The clock readings of the runs play no role, so this
    holds in particular when they do not decrease. *)
Theorem at_most_once_on_success
  (envs : list Env) (w : World) (t : Task) (k : Kind) :
  unique_ids (db w) ->
  Forall (fun env => commit_raises env = None) envs ->
  (successes k (id t) (new_events w (runs envs w)) <= 1)%nat /\
  (In t (db w) -> notified k t = true ->
   calls k (id t) (new_events w (runs envs w)) = 0%nat).
Proof.
  intros U C.
  destruct (runs_successes str_datetime cfg envs w (id t) k U C) as [A B].
  split; [exact A|].
  intros I F. apply B. intros t' I' E.
  now rewrite (unique_in_eq (db w) t' t U I' I E).
Qed.

(** C4 (the flag is set exactly on a successful send).  Take a row [t] of
    the table and a reminder [k] whose flag is false on [t].  When the run
    reaches the commit, the session holds the row [mark evs t], and its
    flag of [k] is true if and only if [send_email] was called for [t] and
    [k] in this run and returned [True]; that row is the one stored when
    the commit goes through.  If the call returned [False],
    the flag is false in the session and in the table after the run, and
    the row is selected again by the query of [k] of any later run whose
    clock still has the due date in the window. *)
Theorem flag_set_iff_send_succeeded
  (env : Env) (w : World) (t : Task) (k : Kind) :
  unique_ids (db w) -> In t (db w) -> notified k t = false ->
  In (mark (events env w) t) (staged str_datetime cfg env w) /\
  (notified k (mark (events env w) t) = true <->
   In (id t, k, true) (sends (events env w))) /\
  (commit_raises env = None ->
   In (mark (events env w) t) (db (snd (scan env w)))) /\
  (In (id t, k, false) (sends (events env w)) ->
   notified k (mark (events env w) t) = false /\
   exists t',
     In t' (db (snd (scan env w))) /\ same_but_flags t t' /\
     notified k t' = false /\
     forall env2,
       query_raises env2 k = None ->
       now env2 < due_date t <= now env2 + lead k ->
       In t' (queried env2 k (db (snd (scan env w))))).
Proof.
  intros U I F.
  split; [rewrite scan_staged; now apply in_map|].
  split.
  { rewrite mark_notified, F. simpl. apply sent_ok_in. }
  split.
  { intros C. rewrite scan_db, C. now apply in_map. }
  intros Hf.
  assert (S0 : sent_ok k (id t) (events env w) = false).
  { apply sent_ok_no_success.
    pose proof (failed_call_counts k (id t) (events env w) Hf).
    pose proof (scan_calls_le str_datetime cfg env w k (id t) U). lia. }
  assert (N : notified k (mark (events env w) t) = false).
  { now rewrite mark_notified, F, S0. }
  split; [exact N|].
  assert (P : status t = "Pending").
  { destruct (sends_in_reminded (id t) k false (events env w) _ _
                (scan_sends str_datetime cfg env w) Hf) as (t0 & E & I0).
    assert (I1 : In t0 (reminded cfg env k (db w))) by (destruct k; exact I0).
    apply reminded_in in I1. destruct I1 as (I1 & _ & _ & D).
    rewrite <- (unique_in_eq (db w) t0 t U I1 I E).
    apply due_filter_true in D. tauto. }
  assert (G : forall t', same_but_flags t t' -> notified k t' = false ->
              forall env2 rows, In t' rows ->
                query_raises env2 k = None ->
                now env2 < due_date t <= now env2 + lead k ->
                In t' (queried env2 k rows)).
  { intros t' (_ & _ & _ & Ed & Es & _) N' env2 rows I' Q2 B.
    unfold queried, due_tasks. rewrite Q2. apply filter_In. split; [exact I'|].
    apply due_filter_true. rewrite Ed, Es. tauto. }
  rewrite scan_db. destruct (commit_raises env).
  - exists t. split; [exact I|].
    assert (Sm : same_but_flags t t) by (unfold same_but_flags; tauto).
    split; [exact Sm|]. split; [exact F|].
    intros env2. now apply G.
  - exists (mark (events env w) t). split; [now apply in_map|].
    split; [apply mark_same_but_flags|]. split; [exact N|].
    intros env2. apply G; [apply mark_same_but_flags | exact N | now apply in_map].
Qed.


End Claims.

(** * Concrete runs *)

Module Examples.

Import Fixtures.

Ltac unique :=
  unfold unique_ids; simpl; repeat constructor; simpl; intuition discriminate.

(** C2, counterexample.  Two tasks are due within a day, both reminders are
    sent with success and both flags are staged; the commit raises, and
    neither flag is stored: the failure took the update of every task with
    it. *)
Lemma failed_commit_rolls_back_every_task :
  sends (scan_events render config (commit_down 0) (fresh [review; backup]))
  = [(2, Day, true); (3, Day, true)] /\
  map notified_1day (staged render config (commit_down 0) (fresh [review; backup]))
  = [true; true] /\
  map notified_1day
    (db (snd (check_deadlines render config (commit_down 0)
                (fresh [review; backup]))))
  = [false; false].
Proof. repeat split; vm_compute; reflexivity. Qed.

(** C5, counterexample.  A run that sends two reminders, a run that sends
    none and a run whose commit fails all return the same value, the unit
    value of a function without a return statement: there is no summary
    and there are no counts in it. *)
Lemma scan_result_carries_no_counts :
  fst (check_deadlines render config (quiet 0) (fresh [report])) = Ok tt /\
  fst (check_deadlines render config (quiet 0) (fresh [])) = Ok tt /\
  fst (check_deadlines render config (commit_down 0) (fresh [report])) = Ok tt /\
  sends (scan_events render config (quiet 0) (fresh [report]))
  = [(1, Day, true); (1, Hour, true)] /\
  sends (scan_events render config (quiet 0) (fresh [])) = [].
Proof. repeat split; vm_compute; reflexivity. Qed.

(** C8, counterexample.  The table holds two rows in the order of their
    keys; the row of key 1 is due later than the row of key 2.  The day
    query returns them in storage order, which is not the ascending order
    of due_date, and the run sends the day reminders in that order. *)
Lemma query_result_not_sorted_by_due_date :
  map id (db (fresh [late; early])) = [1; 2] /\
  tasks_due (quiet 0) Day (now (quiet 0)) (now (quiet 0) + timedelta_days 1)
    (snd (app_context (fresh [late; early])))
  = (Ok [late; early], fresh [late; early]) /\
  due_ascending [late; early] = false /\
  map fst (sends (scan_events render config (quiet 0) (fresh [late; early])))
  = [(1, Day); (2, Day); (2, Hour)].
Proof. repeat split; vm_compute; reflexivity. Qed.

(** C1 on two runs one minute apart: the task is reminded in the first run
    and not again in the second. *)
Lemma at_most_once_on_success_witness :
  unique_ids (db (fresh [report; review])) /\
  Forall (fun env => commit_raises env = None)
         [quiet 0; quiet (timedelta_minutes 1)] /\
  (successes Hour (id report)
     (new_events (fresh [report; review])
        (run_scans render config [quiet 0; quiet (timedelta_minutes 1)]
           (fresh [report; review]))) <= 1)%nat.
Proof.
  assert (U : unique_ids (db (fresh [report; review]))) by unique.
  assert (C : Forall (fun env => commit_raises env = None)
                [quiet 0; quiet (timedelta_minutes 1)])
    by (repeat constructor).
  split; [exact U|]. split; [exact C|].
  exact (proj1 (at_most_once_on_success render config _ _ report Hour U C)).
Defined.

(** C3 on a task due in 23 hours: in the day window, not in the hour
    window, and reminded for the day only. *)
Lemma query_window_correct_witness :
  query_raises (quiet 0) Day = None /\ query_raises (quiet 0) Hour = None /\
  In backup (due_tasks Day (now (quiet 0)) (db (fresh [backup; call]))) /\
  ~ In backup (due_tasks Hour (now (quiet 0)) (db (fresh [backup; call]))) /\
  In (id backup, Day)
     (map fst (sends (scan_events render config (quiet 0)
                        (fresh [backup; call])))).
Proof.
  split; [reflexivity|]. split; [reflexivity|].
  destruct (query_window_correct render config (quiet 0)
              (fresh [backup; call]) eq_refl eq_refl)
    as (_ & _ & _ & S & H & _).
  destruct (H backup) as [A B];
    [simpl; tauto | reflexivity | reflexivity |].
  split; [apply A; reflexivity|]. split; [exact B|].
  apply S. exists backup.
  split; [apply A; reflexivity|]. split; reflexivity.
Defined.

(** C4 on a run whose SMTP dialogue fails: the flag stays false and the task
    is selected again a minute later. *)
Lemma flag_set_iff_send_succeeded_witness :
  unique_ids (db (fresh [report])) /\ In report (db (fresh [report])) /\
  notified Hour report = false /\
  In (id report, Hour, false)
     (sends (scan_events render config (smtp_down 0) (fresh [report]))) /\
  notified Hour
    (mark (scan_events render config (smtp_down 0) (fresh [report])) report)
  = false.
Proof.
  assert (U : unique_ids (db (fresh [report]))) by unique.
  assert (I : In report (db (fresh [report]))) by (simpl; tauto).
  assert (S : In (id report, Hour, false)
                (sends (scan_events render config (smtp_down 0)
                          (fresh [report]))))
    by (vm_compute; tauto).
  split; [exact U|]. split; [exact I|]. split; [reflexivity|].
  split; [exact S|].
  destruct (flag_set_iff_send_succeeded render config (smtp_down 0)
              (fresh [report]) report Hour U I eq_refl) as (_ & _ & _ & H).
  exact (proj1 (H S)).
Defined.


(** C7 on a task without notify_email, the default recipient being empty,
    over three runs. *)
Lemma missing_recipient_is_skipped_witness :
  truthy (notify_recipient config orphan) = false /\
  In orphan
     (db (run_scans render config [quiet 0; smtp_down 1; commit_down 2]
            (fresh [report; orphan]))) /\
  (forall k,
     calls k (id orphan)
       (new_events (fresh [report; orphan])
          (run_scans render config [quiet 0; smtp_down 1; commit_down 2]
             (fresh [report; orphan]))) = 0%nat).
Proof.
  split; [reflexivity|].
  destruct (missing_recipient_is_skipped render config
              [quiet 0; smtp_down 1; commit_down 2]
              (fresh [report; orphan]) orphan) as (_ & A & B & _);
    [unique | simpl; tauto | reflexivity |].
  split; [exact A | exact B].
Defined.

(** C8 on the table stored in key order and out of due order. *)
Lemma query_keeps_storage_order_witness :
  query_raises (quiet 0) Day = None /\ query_raises (quiet 0) Hour = None /\
  map fst (sends (scan_events render config (quiet 0) (fresh [late; early])))
  = (map (fun t => (id t, Day))
       (filter (has_recipient config)
          (due_tasks Day (now (quiet 0)) (db (fresh [late; early]))))
     ++ map (fun t => (id t, Hour))
          (filter (has_recipient config)
             (due_tasks Hour (now (quiet 0)) (db (fresh [late; early])))))%list.
Proof.
  split; [reflexivity|]. split; [reflexivity|].
  destruct (query_keeps_storage_order render config (quiet 0)
              (fresh [late; early]) eq_refl eq_refl)
    as (_ & S & _).
  exact S.
Defined.

(** C9 on a run whose day query fails: no day reminder, the hour reminder
    is sent. *)
Lemma query_failure_degrades_one_kind_witness :
  query_raises (day_query_down 0) Day = Some "connection lost" /\
  fst (check_deadlines render config (day_query_down 0) (fresh [report]))
  = Ok tt /\
  (forall i,
     calls Day i (scan_events render config (day_query_down 0)
                    (fresh [report])) = 0%nat) /\
  sends (scan_events render config (day_query_down 0) (fresh [report]))
  = [(1, Hour, true)].
Proof.
  split; [reflexivity|].
  destruct (query_failure_degrades_one_kind render config (day_query_down 0)
              (fresh [report]) Day "connection lost" eq_refl)
    as (A & _ & B & _).
  split; [exact A|]. split; [exact B|]. vm_compute. reflexivity.
Defined.

End Examples.

(** * Beyond the claims: the scan as a function of the SMTP dialogues *)

Lemma transmitted_app e1 e2 :
  transmitted (e1 ++ e2) = (transmitted e1 ++ transmitted e2)%list.
Proof. unfold transmitted. now rewrite flat_map_app. Qed.

Lemma alerts_app e1 e2 : alerts (e1 ++ e2) = (alerts e1 + alerts e2)%nat.
Proof. unfold alerts. now rewrite filter_app, length_app. Qed.

Lemma all_successes_app e1 e2 :
  all_successes (e1 ++ e2) = (all_successes e1 + all_successes e2)%nat.
Proof. unfold all_successes. now rewrite sends_app, filter_app, length_app. Qed.

Lemma tally_nil cfg : tally cfg [].
Proof. unfold tally. simpl. repeat split; auto. Qed.

Lemma tally_app cfg e1 e2 : tally cfg e1 -> tally cfg e2 -> tally cfg (e1 ++ e2).
Proof.
  intros (A1 & B1 & C1 & D1) (A2 & B2 & C2 & D2). unfold tally.
  rewrite transmitted_app, length_app, alerts_app, all_successes_app.
  split; [lia|]. split; [lia|]. split; [apply Forall_app; now split|].
  intros N. destruct (D1 N) as [S1 T1]. destruct (D2 N) as [S2 T2].
  now rewrite S1, S2, T1, T2.
Qed.

Lemma tally_print cfg s : tally cfg [Print s].
Proof. unfold tally. simpl. repeat split; auto. Qed.

Lemma tally_query_error cfg env k : tally cfg (query_error env k).
Proof.
  unfold query_error. destruct (query_raises env k);
    [apply tally_print | apply tally_nil].
Qed.

Lemma tally_commit_error cfg env : tally cfg (commit_error env).
Proof.
  unfold commit_error. destruct (commit_raises env);
    [apply tally_print | apply tally_nil].
Qed.

Lemma steps_events evs w w' : steps evs w w' -> new_events w w' = evs.
Proof. intros (T & _). now apply new_events_app. Qed.

Lemma new_events_trans w w1 w2 e1 e2 :
  trace w1 = (trace w ++ e1)%list -> trace w2 = (trace w1 ++ e2)%list ->
  new_events w w2 = (new_events w w1 ++ new_events w1 w2)%list.
Proof.
  intros T1 T2.
  rewrite (new_events_app w w1 e1 T1), (new_events_app w1 w2 e2 T2).
  apply new_events_app. rewrite T2, T1. now rewrite app_assoc.
Qed.

Ltac read_events :=
  match goal with
  | |- context [new_events ?w ?w'] =>
      erewrite (new_events_app w w')
        by (simpl; rewrite <- ?app_assoc; reflexivity)
  end.

(** Runs the straight-line part of a computation of the job. *)
Ltac run_job :=
  repeat
    (progress
       (cbv beta iota zeta delta
          [remind send_email bind try_except EmailMessage_build
           smtp_send_message print log ret
           write_notified db_session_add socketio_emit negb orb andb];
        cbn [fst snd db session smtp_calls emit_calls trace])).

Section Exact.

Variable str_datetime : Z -> string.
Variable cfg : Config.

(** One turn of a loop, exactly: the call and its result, the number of
    SMTP dialogues afterwards, and the tally of its events. *)
Lemma remind_exact env k t w :
  let w' := snd (remind str_datetime cfg env k t w) in
  sends (new_events w w')
  = fst (loop_outcomes str_datetime cfg env k [t] (smtp_calls w)) /\
  smtp_calls w'
  = snd (loop_outcomes str_datetime cfg env k [t] (smtp_calls w)) /\
  tally cfg (new_events w w').
Proof.
  unfold loop_outcomes, has_recipient, send_result, dialogue_started,
    has_credentials, email_message.
  run_job.
  destruct (truthy (notify_recipient cfg t)) eqn:R; run_job.
  - destruct (truthy (EMAIL_USER cfg)) eqn:U;
      destruct (truthy (EMAIL_PASS cfg)) eqn:P; run_job.
    + destruct (message_raises env _) eqn:B; run_job.
      * read_events. unfold tally, has_credentials. simpl.
        rewrite U, P. repeat split; auto; discriminate.
      * destruct (smtp_raises env (smtp_calls w) _) eqn:S; run_job.
        -- destruct (smtp_handed_over env (smtp_calls w) _) eqn:V; run_job;
             read_events; unfold tally, has_credentials; simpl;
             rewrite ?U, ?P; repeat split; auto; try discriminate;
             repeat constructor; auto.
        -- destruct (emit_raises env (emit_calls w)) eqn:E; run_job;
             read_events; unfold tally, has_credentials; simpl;
             rewrite ?U, ?P; repeat split; auto; try discriminate;
             repeat constructor; auto.
    + read_events. unfold tally. simpl. repeat split; auto.
    + read_events. unfold tally. simpl. repeat split; auto.
    + read_events. unfold tally. simpl. repeat split; auto.
  - read_events.
    split; [reflexivity|]. split; [reflexivity|]. apply tally_print.
Qed.

Lemma loop_outcomes_cons env k t l n :
  loop_outcomes str_datetime cfg env k (t :: l) n
  = (fst (loop_outcomes str_datetime cfg env k [t] n)
     ++ fst (loop_outcomes str_datetime cfg env k l
               (snd (loop_outcomes str_datetime cfg env k [t] n))),
     snd (loop_outcomes str_datetime cfg env k l
            (snd (loop_outcomes str_datetime cfg env k [t] n))))%list.
Proof.
  simpl. destruct (has_recipient cfg t); simpl.
  - now destruct (loop_outcomes str_datetime cfg env k l _).
  - now destruct (loop_outcomes str_datetime cfg env k l n).
Qed.

Lemma for_each_exact env k l : forall w,
  let w' := snd (for_each l (remind str_datetime cfg env k) w) in
  sends (new_events w w')
  = fst (loop_outcomes str_datetime cfg env k l (smtp_calls w)) /\
  smtp_calls w'
  = snd (loop_outcomes str_datetime cfg env k l (smtp_calls w)) /\
  tally cfg (new_events w w').
Proof.
  induction l as [|t l IH]; intros w.
  - simpl. rewrite new_events_refl.
    split; [reflexivity|]. split; [reflexivity|]. apply tally_nil.
  - destruct (remind_steps str_datetime cfg env k t w)
      as (e1 & w1 & E1 & (T1 & _) & _).
    destruct (for_each_remind_steps str_datetime cfg env k l w1)
      as (e2 & w2 & E2 & (T2 & _) & _).
    pose proof (remind_exact env k t w) as X1.
    pose proof (IH w1) as X2.
    rewrite E1 in X1. rewrite E2 in X2. cbn [snd] in X1, X2.
    destruct X1 as (A1 & B1 & C1). destruct X2 as (A2 & B2 & C2).
    assert (E : for_each (t :: l) (remind str_datetime cfg env k) w
                = (Ok tt, w2)).
    { simpl. unfold bind. rewrite E1. exact E2. }
    rewrite E. cbn [snd].
    rewrite (new_events_trans w w1 w2 e1 e2 T1 T2), loop_outcomes_cons.
    cbn [fst snd]. rewrite sends_app, A1, A2, B2, B1.
    split; [reflexivity|]. split; [reflexivity|]. now apply tally_app.
Qed.

Lemma tasks_due_calls env k n th w :
  smtp_calls (snd (tasks_due env k n th w)) = smtp_calls w.
Proof.
  unfold tasks_due, try_except, Task_query.
  now destruct (query_raises env k).
Qed.

Lemma loop_outcomes_mark env k evs l : forall n,
  loop_outcomes str_datetime cfg env k (map (mark evs) l) n
  = loop_outcomes str_datetime cfg env k l n.
Proof.
  induction l as [|t l IH]; intros n; [reflexivity|].
  simpl. change (has_recipient cfg (mark evs t)) with (has_recipient cfg t).
  destruct (has_recipient cfg t).
  - rewrite IH.
    assert (S : reminder_subject k (mark evs t) = reminder_subject k t)
      by now destruct k.
    rewrite S. reflexivity.
  - apply IH.
Qed.

(** Everything before the commit, exactly. *)
Lemma stage_exact env w :
  let w' := snd (stage_reminders str_datetime cfg env w) in
  sends (new_events w w')
  = scan_outcomes str_datetime cfg env (session w) (smtp_calls w) /\
  tally cfg (new_events w w').
Proof.
  destruct (stage_reminders_steps str_datetime cfg env w)
    as (e_day & e_hour & w4 & E & (T & _) & _).
  unfold stage_reminders in *.
  destruct (tasks_due_steps env Day w) as (w1 & E1 & S1).
  destruct (for_each_remind_steps str_datetime cfg env Day
              (queried env Day (session w)) w1) as (e1 & w2 & E2 & S2 & Q2).
  destruct (tasks_due_steps env Hour w2) as (w3 & E3 & S3).
  destruct (for_each_remind_steps str_datetime cfg env Hour
              (queried env Hour (session w2)) w3) as (e2 & w4' & E4 & S4 & Q4).
  assert (R : (tasks_day <- tasks_due env Day (now env)
                              (now env + timedelta_days 1) ;;
               for_each tasks_day (remind str_datetime cfg env Day) ;;
               tasks_hour <- tasks_due env Hour (now env)
                               (now env + timedelta_hours 1) ;;
               for_each tasks_hour (remind str_datetime cfg env Hour)) w
              = (Ok tt, w4')).
  { unfold bind at 1. change (timedelta_days 1) with (lead Day). rewrite E1.
    unfold bind at 1. rewrite E2.
    unfold bind at 1. change (timedelta_hours 1) with (lead Hour). rewrite E3.
    exact E4. }
  cbv zeta. rewrite R. cbn [snd].
  pose proof (for_each_exact env Day (queried env Day (session w)) w1) as X1.
  pose proof (for_each_exact env Hour (queried env Hour (session w2)) w3) as X2.
  rewrite E2 in X1. rewrite E4 in X2. cbn [snd] in X1, X2.
  destruct X1 as (A1 & B1 & C1). destruct X2 as (A2 & B2 & C2).
  pose proof (tasks_due_calls env Day (now env) (now env + lead Day) w) as N1.
  pose proof (tasks_due_calls env Hour (now env) (now env + lead Hour) w2) as N3.
  rewrite E1 in N1. rewrite E3 in N3. cbn [snd] in N1, N3.
  rewrite (steps_events _ _ _ S2) in A1, C1.
  rewrite (steps_events _ _ _ S4) in A2, C2.
  assert (S12 := steps_trans _ _ _ _ _ S1 S2).
  assert (S34 := steps_trans _ _ _ _ _ S3 S4).
  assert (SA := steps_trans _ _ _ _ _ S12 S34).
  rewrite (steps_events _ _ _ SA).
  split.
  - rewrite !sends_app, !sends_query_error, A1, A2. simpl.
    unfold scan_outcomes.
    destruct S12 as (_ & _ & SS). rewrite SS.
    rewrite queried_mark, loop_outcomes_mark.
    + rewrite N3, B1, N1.
      destruct (loop_outcomes str_datetime cfg env Day
                  (queried env Day (session w)) (smtp_calls w)) as [d n'].
      cbn [fst snd].
      now destruct (loop_outcomes str_datetime cfg env Hour
                      (queried env Hour (session w)) n').
    + intros i. eapply sent_ok_other_kind with (k' := Day); [|discriminate].
      rewrite sends_app, sends_query_error. exact Q2.
  - repeat apply tally_app; auto using tally_query_error.
Qed.

(** A run, exactly. *)
Lemma scan_exact env w :
  sends (scan_events str_datetime cfg env w)
  = scan_outcomes str_datetime cfg env (db w) (smtp_calls w) /\
  tally cfg (scan_events str_datetime cfg env w).
Proof.
  unfold scan_events. rewrite check_deadlines_run. cbn [snd].
  set (w0 := snd (app_context w)).
  destruct (stage_reminders_steps str_datetime cfg env w0)
    as (e_day & e_hour & w1 & E & (T & _) & _).
  pose proof (stage_exact env w0) as X. rewrite E in *. cbn [snd] in *.
  destruct X as (A & B).
  rewrite (new_events_app w0 w1 _ T) in A, B.
  assert (TS : trace (settle env w1)
               = (trace w ++ (query_error env Day ++ e_day
                              ++ query_error env Hour ++ e_hour)
                  ++ commit_error env)%list).
  { unfold settle, commit_error. destruct (commit_raises env); cbn [trace];
      rewrite T; change (trace w0) with (trace w);
      rewrite <- ?app_assoc, ?app_nil_r; reflexivity. }
  rewrite (new_events_app w _ _ TS). split.
  - rewrite sends_app, sends_commit_error, app_nil_r. exact A.
  - apply tally_app; [exact B | apply tally_commit_error].
Qed.

End Exact.

Lemma successes_le_all k i evs : (successes k i evs <= all_successes evs)%nat.
Proof.
  unfold successes, all_successes.
  induction (sends evs) as [|s l IH]; simpl; [lia|].
  destruct (is_call i k s), (snd s); simpl; lia.
Qed.

Lemma no_success_no_mark evs rows :
  all_successes evs = 0%nat -> map (mark evs) rows = rows.
Proof.
  intros H. rewrite <- (map_id rows) at 2. apply map_ext. intros t.
  apply mark_unsent; apply sent_ok_no_success;
    [pose proof (successes_le_all Day (id t) evs)
    |pose proof (successes_le_all Hour (id t) evs)]; lia.
Qed.

Lemma length_zero_nil {A} (l : list A) : List.length l = 0%nat -> l = [].
Proof. destruct l; [reflexivity | discriminate]. Qed.

Section BeyondScan.

Variable str_datetime : Z -> string.
Variable cfg : Config.

Local Abbreviation scan := (check_deadlines str_datetime cfg).
Local Abbreviation events := (scan_events str_datetime cfg).
Local Abbreviation runs := (run_scans str_datetime cfg).

Lemma loop_outcomes_emit env f k l : forall n,
  loop_outcomes str_datetime cfg (with_emit env f) k l n
  = loop_outcomes str_datetime cfg env k l n.
Proof.
  induction l as [|t l IH]; intros n; [reflexivity|].
  simpl. destruct (has_recipient cfg t); [|apply IH].
  rewrite IH. reflexivity.
Qed.

(** X1.  The calls of [send_email] of a run and their results are those of
    [scan_outcomes]: the day loop, then the hour loop, each over the due
    rows of the table that have a recipient, in storage order; a call
    returns [True] exactly when the credentials are set, its message is
    built without raising and its SMTP dialogue does not raise, the
    dialogues being numbered in the order in which they are started. *)
Theorem scan_sends_are_scan_outcomes (env : Env) (w : World) :
  sends (events env w)
  = scan_outcomes str_datetime cfg env (db w) (smtp_calls w).
Proof. apply (scan_exact str_datetime cfg env w). Qed.

(** X2.  Whether the socket emits of a run go through or raise makes no
    difference to the reminders: the same calls of [send_email] with the
    same results, the same staged flags and the same table afterwards. *)
Theorem emit_failures_change_nothing
  (env : Env) (f : nat -> option string) (w : World) :
  sends (events (with_emit env f) w) = sends (events env w) /\
  staged str_datetime cfg (with_emit env f) w = staged str_datetime cfg env w /\
  db (snd (scan (with_emit env f) w)) = db (snd (scan env w)).
Proof.
  assert (S : sends (events (with_emit env f) w) = sends (events env w)).
  { rewrite (proj1 (scan_exact str_datetime cfg (with_emit env f) w)),
      (proj1 (scan_exact str_datetime cfg env w)).
    unfold scan_outcomes.
    change (queried (with_emit env f)) with (queried env).
    rewrite loop_outcomes_emit.
    destruct (loop_outcomes str_datetime cfg env Day
                (queried env Day (db w)) (smtp_calls w)) as [d n'].
    now rewrite loop_outcomes_emit. }
  assert (M : map (mark (events (with_emit env f) w)) (db w)
              = map (mark (events env w)) (db w)).
  { apply map_ext. intros t. now apply mark_sends. }
  split; [exact S|]. split.
  - now rewrite !scan_staged.
  - rewrite !scan_db. change (commit_raises (with_emit env f))
      with (commit_raises env).
    now destruct (commit_raises env).
Qed.

(** X3.  In every run, each call of [send_email] that returned [True] has
    handed its message to the SMTP server, so the successful calls are at
    most as many as the messages handed over; at most one alert is emitted
    per successful call; and every message handed over has a non-empty
    recipient and the configured sender. *)
Theorem successes_are_transmitted (env : Env) (w : World) :
  (all_successes (events env w) <= List.length (transmitted (events env w)))%nat /\
  (alerts (events env w) <= all_successes (events env w))%nat /\
  Forall (fun m => truthy (To m) = true /\
                   From m = str_or (DEFAULT_FROM cfg) (EMAIL_USER cfg))
         (transmitted (events env w)).
Proof.
  destruct (scan_exact str_datetime cfg env w) as (_ & A & B & C & _).
  split; [lia|]. split; [exact B | exact C].
Qed.

Lemma scan_without_credentials env w :
  has_credentials cfg = false ->
  db (snd (scan env w)) = db w /\
  transmitted (events env w) = [] /\
  alerts (events env w) = 0%nat /\
  all_successes (events env w) = 0%nat.
Proof.
  intros H.
  destruct (scan_exact str_datetime cfg env w) as (_ & _ & B & _ & D).
  destruct (D H) as [S T]. rewrite S in B.
  split; [|split; [exact T | split; [lia | exact S]]].
  rewrite scan_db. destruct (commit_raises env); [reflexivity|].
  now apply no_success_no_mark.
Qed.

(** X4.  Without SMTP credentials (EMAIL_USER or EMAIL_PASS empty) the job
    sends nothing and flags nothing, however often it runs: no message is
    handed to the server, no alert is emitted, no call of [send_email]
    returns [True], and the table stays as it was, so every reminder is
    still due once the credentials are set. *)
Theorem no_credentials_nothing_sent_nothing_flagged
  (envs : list Env) (w : World) :
  has_credentials cfg = false ->
  db (runs envs w) = db w /\
  transmitted (new_events w (runs envs w)) = [] /\
  alerts (new_events w (runs envs w)) = 0%nat /\
  all_successes (new_events w (runs envs w)) = 0%nat.
Proof.
  intros H. revert w. induction envs as [|env envs IH]; intros w.
  - simpl. rewrite new_events_refl. repeat split.
  - destruct (scan_without_credentials env w H) as (D1 & T1 & A1 & S1).
    destruct (IH (snd (scan env w))) as (D2 & T2 & A2 & S2).
    rewrite run_scans_cons, transmitted_app, alerts_app, all_successes_app.
    rewrite T1, T2, A1, A2, S1, S2.
    split; [|repeat split].
    simpl. rewrite D2. exact D1.
Qed.

Lemma scan_not_selected env w t :
  unique_ids (db w) -> In t (db w) ->
  (forall k, due_filter k (now env) (now env + lead k) t = false) ->
  In t (db (snd (scan env w))) /\
  forall k, calls k (id t) (events env w) = 0%nat.
Proof.
  intros U I N.
  assert (Z0 : forall k, calls k (id t) (events env w) = 0%nat).
  { intros k. rewrite scan_calls, with_id_none; [reflexivity|].
    intros t' Ht' E. apply reminded_in in Ht'.
    destruct Ht' as (I' & _ & _ & D).
    rewrite (unique_in_eq (db w) t' t U I' I E), N in D. discriminate. }
  split; [|exact Z0].
  rewrite scan_db. destruct (commit_raises env); [exact I|].
  apply in_map_iff. exists t. split; [|exact I].
  apply mark_unsent; apply sent_ok_no_success;
    [pose proof (successes_le_calls Day (id t) (events env w));
     pose proof (Z0 Day)
    |pose proof (successes_le_calls Hour (id t) (events env w));
     pose proof (Z0 Hour)]; lia.
Qed.

Lemma out_of_window k n t :
  status t <> "Pending" \/ due_date t <= n \/ n + timedelta_days 1 < due_date t ->
  due_filter k n (n + lead k) t = false.
Proof.
  intros H. apply not_true_is_false. intros D.
  apply due_filter_true in D. destruct D as (P & B & _).
  assert (L : lead k <= timedelta_days 1)
    by (destruct k; unfold lead, timedelta_days, timedelta_hours; lia).
  destruct H as [H|[H|H]]; [contradiction | lia | lia].
Qed.

(** X5.  A task that, at the clock of every run, is not Pending, or is
    already past due (due date not after the clock), or is due more than a
    day later, is left alone by all these runs: [send_email] is never
    called for it, for neither reminder, and its row stays in the table
    exactly as it is. *)
Theorem not_due_never_reminded (envs : list Env) (w : World) (t : Task) :
  unique_ids (db w) -> In t (db w) ->
  Forall (fun env =>
            status t <> "Pending" \/ due_date t <= now env \/
            now env + timedelta_days 1 < due_date t) envs ->
  In t (db (runs envs w)) /\
  forall k, calls k (id t) (new_events w (runs envs w)) = 0%nat.
Proof.
  revert w. induction envs as [|env envs IH]; intros w U I F.
  - simpl. rewrite new_events_refl. split; [exact I | reflexivity].
  - inversion F as [|? ? F1 F2]; subst.
    destruct (scan_not_selected env w t U I) as [I1 Z1].
    { intros k. now apply out_of_window. }
    assert (U1 : unique_ids (db (snd (scan env w)))).
    { unfold unique_ids. now rewrite scan_ids. }
    destruct (IH (snd (scan env w)) U1 I1 F2) as [I2 Z2].
    split; [exact I2|].
    intros k. rewrite run_scans_cons, calls_app, Z1, Z2. reflexivity.
Qed.

(** X6.  After a run in which the query of reminder [k] and the commit went
    through and no send of reminder [k] failed, a later run (its clock not
    before the first one's) calls [send_email] for reminder [k] only for
    tasks that were not yet in the window of [k] at the first run: their
    due date is more than the lead time of [k] after the first clock. *)
Theorem later_run_reminds_only_newly_due
  (env env2 : Env) (w : World) (k : Kind) (i : Z) :
  query_raises env k = None -> commit_raises env = None ->
  (forall j, ~ In (j, k, false) (sends (events env w))) ->
  now env <= now env2 ->
  In (i, k) (map fst (sends (events env2 (snd (scan env w))))) ->
  exists t, In t (db w) /\ id t = i /\ now env + lead k < due_date t.
Proof.
  intros Q C NF L H.
  assert (R : exists t1, id t1 = i /\
                In t1 (reminded cfg env2 k (db (snd (scan env w))))).
  { rewrite scan_sends in H. apply in_app_or in H.
    destruct H as [H|H]; apply in_map_iff in H;
      destruct H as (t1 & E & I1); injection E as E1 E2; subst; eauto. }
  destruct R as (t1 & E1 & I1). apply reminded_in in I1.
  destruct I1 as (I1 & R1 & _ & D1).
  rewrite scan_db, C in I1. apply in_map_iff in I1.
  destruct I1 as (t & <- & I).
  exists t. split; [exact I|]. split; [exact E1|].
  apply due_filter_true in D1. destruct D1 as (P & B & N).
  change (status (mark (events env w) t)) with (status t) in P.
  change (due_date (mark (events env w) t)) with (due_date t) in B.
  rewrite mark_notified in N. apply orb_false_elim in N.
  destruct N as [N S].
  destruct (Z_le_gt_dec (due_date t) (now env + lead k)) as [W|W]; [|lia].
  exfalso.
  assert (I0 : In t (reminded cfg env k (db w))).
  { unfold reminded, queried, due_tasks. rewrite Q.
    apply filter_In. split; [|exact R1].
    apply filter_In. split; [exact I|].
    apply due_filter_true. repeat split; auto; lia. }
  assert (M : In (id t, k) (map fst (sends (events env w)))).
  { rewrite scan_sends. apply in_or_app.
    destruct k; [left | right];
      apply in_map_iff; exists t; split; auto. }
  apply in_map_iff in M. destruct M as ([[j k'] ok] & E & M).
  simpl in E. injection E as -> ->.
  destruct ok.
  - apply sent_ok_in in M. congruence.
  - apply (NF (id t)). exact M.
Qed.

End BeyondScan.

(** * Beyond the claims: send_email and the web routes *)

Section BeyondMail.

Variable str_datetime : Z -> string.
Variable cfg : Config.

Lemma send_email_exact
  (env : Env) (to_address subject body : string) (w : World) :
  fst (send_email cfg env to_address subject body w)
  = Ok (send_result cfg env (smtp_calls w) to_address subject body) /\
  db (snd (send_email cfg env to_address subject body w)) = db w /\
  session (snd (send_email cfg env to_address subject body w)) = session w /\
  transmitted
    (new_events w (snd (send_email cfg env to_address subject body w)))
  = (if handed_over cfg env (smtp_calls w) to_address subject body
     then [email_message cfg to_address subject body] else []) /\
  sends (new_events w (snd (send_email cfg env to_address subject body w)))
  = [] /\
  smtp_calls (snd (send_email cfg env to_address subject body w))
  = (if dialogue_started cfg env to_address subject body
     then S (smtp_calls w) else smtp_calls w) /\
  exists evs,
    trace (snd (send_email cfg env to_address subject body w))
    = (trace w ++ evs)%list.
Proof.
  unfold send_result, handed_over, dialogue_started, has_credentials,
    email_message.
  run_job.
  destruct (truthy (EMAIL_USER cfg)); destruct (truthy (EMAIL_PASS cfg));
    run_job;
    try (read_events; repeat split; try reflexivity;
         eexists; rewrite <- ?app_assoc; reflexivity).
  destruct (message_raises env _); run_job.
  - read_events; repeat split; try reflexivity;
      eexists; rewrite <- ?app_assoc; reflexivity.
  - destruct (smtp_raises env (smtp_calls w) _); run_job.
    + destruct (smtp_handed_over env (smtp_calls w) _); run_job;
        read_events; repeat split; try reflexivity;
        eexists; rewrite <- ?app_assoc; reflexivity.
    + read_events; repeat split; try reflexivity;
        eexists; rewrite <- ?app_assoc; reflexivity.
Qed.

Lemma send_result_handed_over cfg' env n a b c :
  send_result cfg' env n a b c = true -> handed_over cfg' env n a b c = true.
Proof.
  unfold send_result, handed_over.
  destruct (dialogue_started cfg' env a b c); [|discriminate].
  now destruct (smtp_raises env n _).
Qed.

(** X7.  [send_email] never raises and never touches the table or the
    session.  It hands at most one message to the SMTP server, and only
    the one built from its arguments; when it returns [True] that message
    was handed over.  Without credentials it returns [False], starts no
    SMTP dialogue and hands nothing over. *)
Theorem send_email_contract
  (env : Env) (to_address subject body : string) (w : World) :
  exists ok,
    fst (send_email cfg env to_address subject body w) = Ok ok /\
    db (snd (send_email cfg env to_address subject body w)) = db w /\
    session (snd (send_email cfg env to_address subject body w)) = session w /\
    (List.length
       (transmitted
          (new_events w (snd (send_email cfg env to_address subject body w))))
     <= 1)%nat /\
    Forall (fun m => m = email_message cfg to_address subject body)
      (transmitted
         (new_events w (snd (send_email cfg env to_address subject body w)))) /\
    (ok = true ->
     transmitted
       (new_events w (snd (send_email cfg env to_address subject body w)))
     = [email_message cfg to_address subject body]) /\
    (has_credentials cfg = false ->
     ok = false /\
     transmitted
       (new_events w (snd (send_email cfg env to_address subject body w)))
     = [] /\
     smtp_calls (snd (send_email cfg env to_address subject body w))
     = smtp_calls w).
Proof.
  destruct (send_email_exact env to_address subject body w)
    as (A & B & C & D & _ & F & _).
  exists (send_result cfg env (smtp_calls w) to_address subject body).
  split; [exact A|]. split; [exact B|]. split; [exact C|].
  rewrite D, F.
  split; [destruct (handed_over cfg env _ _ _ _); simpl; lia|].
  split; [destruct (handed_over cfg env _ _ _ _); repeat constructor|].
  split.
  - intros H. now rewrite (send_result_handed_over _ _ _ _ _ _ H).
  - intros H. unfold send_result, handed_over, dialogue_started.
    rewrite H. repeat split.
Qed.

End BeyondMail.

(** ** The index page *)

Lemma insert_by_due_perm t rows : Permutation (t :: rows) (insert_by_due t rows).
Proof.
  induction rows as [|r rows IH]; simpl; [apply Permutation_refl|].
  destruct (due_date t <=? due_date r); [apply Permutation_refl|].
  eapply perm_trans; [apply perm_swap|]. now apply perm_skip.
Qed.

Lemma order_by_due_date_perm rows : Permutation rows (order_by_due_date rows).
Proof.
  induction rows as [|t rows IH]; simpl; [constructor|].
  eapply perm_trans; [apply perm_skip; exact IH|].
  apply insert_by_due_perm.
Qed.

Lemma insert_by_due_ascending t rows :
  due_ascending rows = true -> due_ascending (insert_by_due t rows) = true.
Proof.
  induction rows as [|r rows IH]; intros H; [reflexivity|].
  cbn [insert_by_due]. destruct (due_date t <=? due_date r) eqn:L.
  - apply due_ascending_cons. split; [|exact H].
    apply Z.leb_le in L. apply due_ascending_cons in H. destruct H as [H _].
    intros b [<-|Hb]; [exact L|]. specialize (H b Hb). lia.
  - apply Z.leb_gt in L. apply due_ascending_cons in H. destruct H as [H S].
    apply due_ascending_cons. split; [|now apply IH].
    intros b Hb.
    apply (Permutation_in b (Permutation_sym (insert_by_due_perm t rows)))
      in Hb.
    destruct Hb as [<-|Hb]; [lia | now apply H].
Qed.

Lemma order_by_due_date_ascending rows :
  due_ascending (order_by_due_date rows) = true.
Proof.
  induction rows as [|t rows IH]; [reflexivity|].
  simpl. now apply insert_by_due_ascending.
Qed.

(** X8.  The index page lists every task of the table exactly once, in
    ascending order of due date, and changes nothing; when its query raises,
    the exception leaves the view (there is no try around it) and still
    nothing is changed. *)
Theorem index_lists_all_tasks_by_due_date (st : Store) (w : World) :
  match listing_raises st with
  | Some e => fst (index st w) = Raise e
  | None =>
      exists tasks,
        fst (index st w) = Ok (Template "index.html" tasks) /\
        Permutation (db w) tasks /\ due_ascending tasks = true
  end /\
  db (snd (index st w)) = db w /\
  trace (snd (index st w)) = trace w.
Proof.
  unfold index, bind, app_context, Task_query_ordered, ret.
  destruct (listing_raises st); cbn [fst snd db session trace].
  - auto.
  - split; [|auto]. eexists. split; [reflexivity|].
    split; [apply order_by_due_date_perm | apply order_by_due_date_ascending].
Qed.

(** ** The form *)


Lemma unique_ids_snoc rows t :
  unique_ids rows -> ~ In (id t) (map id rows) -> unique_ids (rows ++ [t]).
Proof.
  unfold unique_ids. intros U N. rewrite map_app. simpl.
  apply NoDup_app; [exact U | repeat constructor; simpl; tauto |].
  intros a Ha [<-|[]]. contradiction.
Qed.

Section BeyondWeb.

Variable str_datetime : Z -> string.
Variable cfg : Config.
Variable strptime : string -> option Z.
Variable fromisoformat : string -> option Z.

Local Abbreviation add := (add_task str_datetime cfg strptime fromisoformat).
Local Abbreviation form_ok := (accepted strptime fromisoformat).
Local Abbreviation confirm := (after_commit str_datetime cfg).

Lemma add_task_accepted env st form due w :
  form_ok form due ->
  add env st form w
  = match commit_raises env with
    | Some e =>
        (Raise e,
         {| db := db w; session := (db w ++ [new_row st form due])%list;
            smtp_calls := smtp_calls w; emit_calls := emit_calls w;
            trace := trace w |})
    | None => confirm env st form due (stored st form due w)
    end.
Proof.
  intros (T & D & P). unfold add_task, after_commit, stored, parse_due_date in *.
  unfold bind at 1. unfold app_context at 1. cbv beta iota.
  rewrite T, D, P. cbn [negb orb].
  unfold bind at 1. unfold db_session_add_new at 1. cbv beta iota.
  unfold bind at 1. unfold db_session_commit at 1.
  cbn [db session smtp_calls emit_calls trace].
  destruct (commit_raises env); reflexivity.
Qed.

(** The confirmation never touches the table. *)
Lemma after_commit_table env st form due w :
  db (snd (confirm env st form due w)) = db w /\
  (fst (confirm env st form due w) = Ok (Redirect "index") \/
   exists e, reload_raises st = Some e /\
             truthy_opt (or_None (form_get form "notify_email")) = true /\
             fst (confirm env st form due w) = Raise e) /\
  (reload_raises st = None ->
   fst (confirm env st form due w) = Ok (Redirect "index")) /\
  (List.length (transmitted (new_events w (snd (confirm env st form due w))))
   <= 1)%nat /\
  Forall (fun m => Some (To m) = or_None (form_get form "notify_email"))
         (transmitted (new_events w (snd (confirm env st form due w)))) /\
  (or_None (form_get form "notify_email") = None ->
   snd (confirm env st form due w) = w).
Proof.
  unfold after_commit.
  destruct (or_None (form_get form "notify_email")) as [addr|] eqn:N;
    cbn [truthy_opt].
  2:{ unfold bind, ret. cbn [fst snd]. rewrite new_events_refl. simpl.
      repeat split; auto. }
  assert (TA : truthy addr = true).
  { unfold or_None in N.
    destruct (truthy_opt (form_get form "notify_email")) eqn:TO;
      [|discriminate].
    rewrite N in TO. exact TO. }
  rewrite TA.
  cbv beta iota zeta delta [bind ret print log reload_due_date].
  destruct (reload_raises st) as [e|] eqn:RL.
  - cbn [fst snd]. rewrite new_events_refl. simpl.
    repeat split; eauto; discriminate.
  - cbn [opt_or]. unfold str_or. rewrite TA.
    destruct (send_email_exact cfg env addr (confirmation_subject form)
                (confirmation_body str_datetime form
                   (due_date (new_row st form due))) w)
      as (R & D & _ & T & _ & _ & (evs & TR)).
    destruct (send_email cfg env addr (confirmation_subject form)
                (confirmation_body str_datetime form
                   (due_date (new_row st form due))) w) as [r w1].
    cbn [fst snd] in *. subst r. cbn [fst snd db trace].
    rewrite (new_events_app w w1 evs TR) in T.
    erewrite (new_events_app w _ (evs ++ [_])%list)
      by (cbn [trace]; rewrite TR, app_assoc; reflexivity).
    rewrite transmitted_app, T. cbn [transmitted flat_map].
    rewrite app_nil_r.
    split; [exact D|]. split; [now left|]. split; [reflexivity|].
    destruct (handed_over cfg env (smtp_calls w) addr _ _); simpl;
      (split; [lia|]); (split; [repeat constructor | discriminate]).
Qed.

(** X9.  A form without a title or without a due date, the field missing
    or empty, is refused with "Missing fields" and status 400; nothing is
    stored, nothing is sent and nothing is printed. *)
Theorem add_task_refuses_missing_fields
  (env : Env) (st : Store) (form : Form) (w : World) :
  truthy_opt (form_get form "title") = false \/
  truthy_opt (form_get form "due_date") = false ->
  fst (add env st form w) = Ok (Text "Missing fields" 400) /\
  db (snd (add env st form w)) = db w /\
  trace (snd (add env st form w)) = trace w /\
  smtp_calls (snd (add env st form w)) = smtp_calls w.
Proof.
  intros H. unfold add_task. unfold bind at 1 2 3 4. unfold app_context.
  cbv beta iota.
  assert (B : negb (truthy_opt (form_get form "title"))
              || negb (truthy_opt (form_get form "due_date")) = true).
  { destruct H as [-> | ->]; [reflexivity | apply orb_true_r]. }
  rewrite B. repeat split.
Qed.

(** X10.  A form whose due date is read by neither
    [strptime(..., '%Y-%m-%dT%H:%M')] nor [fromisoformat] is refused with
    "Invalid date format. Use YYYY-MM-DDTHH:MM" and status 400; nothing is
    stored, nothing is sent and nothing is printed. *)
Theorem add_task_refuses_unreadable_date
  (env : Env) (st : Store) (form : Form) (w : World) :
  truthy_opt (form_get form "title") = true ->
  truthy_opt (form_get form "due_date") = true ->
  strptime (opt_or (form_get form "due_date") "") = None ->
  fromisoformat (opt_or (form_get form "due_date") "") = None ->
  fst (add env st form w)
  = Ok (Text "Invalid date format. Use YYYY-MM-DDTHH:MM" 400) /\
  db (snd (add env st form w)) = db w /\
  trace (snd (add env st form w)) = trace w /\
  smtp_calls (snd (add env st form w)) = smtp_calls w.
Proof.
  intros T D P1 P2. unfold add_task, parse_due_date.
  unfold bind at 1 2 3 4. unfold app_context. cbv beta iota.
  rewrite T, D, P1, P2. repeat split.
Qed.

(** X11.  When the form is accepted and the commit goes through, the table
    afterwards is the old table followed by the new row: the key the
    database gave, the title, description and date of the form, status
    Pending, both flags false, and the notify_email of the form or none
    when it is empty.  This holds whatever happens to the confirmation
    e-mail; the view then redirects to the index, unless reloading the
    task for the confirmation raises.  A new key keeps the keys of the
    table unique. *)
Theorem add_task_stores_the_row
  (env : Env) (st : Store) (form : Form) (due : Z) (w : World) :
  form_ok form due -> commit_raises env = None ->
  db (snd (add env st form w)) = (db w ++ [new_row st form due])%list /\
  (fst (add env st form w) = Ok (Redirect "index") \/
   exists e, reload_raises st = Some e /\
             truthy_opt (form_get form "notify_email") = true /\
             fst (add env st form w) = Raise e) /\
  (unique_ids (db w) -> ~ In (assigned_id st) (map id (db w)) ->
   unique_ids (db (snd (add env st form w)))).
Proof.
  intros A C. rewrite (add_task_accepted env st form due w A), C.
  destruct (after_commit_table env st form due (stored st form due w))
    as (D & R & _).
  rewrite D. cbn [stored db].
  split; [reflexivity|]. split.
  - destruct R as [R|(e & R1 & R2 & R3)]; [now left|].
    right. exists e. split; [exact R1|]. split; [|exact R3].
    unfold or_None in R2.
    now destruct (truthy_opt (form_get form "notify_email")).
  - intros U N. now apply unique_ids_snoc.
Qed.

(** X12.  When the commit of an accepted form raises, the exception leaves
    the view (there is no try around it): the table is unchanged, no
    confirmation is sent and nothing is printed. *)
Theorem add_task_commit_failure
  (env : Env) (st : Store) (form : Form) (due : Z) (w : World) (e : string) :
  form_ok form due -> commit_raises env = Some e ->
  fst (add env st form w) = Raise e /\
  db (snd (add env st form w)) = db w /\
  trace (snd (add env st form w)) = trace w /\
  smtp_calls (snd (add env st form w)) = smtp_calls w.
Proof.
  intros A C. rewrite (add_task_accepted env st form due w A), C.
  repeat split.
Qed.

(** X13.  The confirmation of an accepted and committed form: at most one
    message is handed to the SMTP server, and only to the notify_email of
    the form; a form without notify_email sends and prints nothing.  When
    the task reloads, the view redirects to the index whether or not the
    e-mail went out. *)
Theorem add_task_confirms_to_the_given_address_only
  (env : Env) (st : Store) (form : Form) (due : Z) (w : World) :
  form_ok form due -> commit_raises env = None ->
  (List.length (transmitted (new_events w (snd (add env st form w)))) <= 1)%nat /\
  Forall (fun m => Some (To m) = or_None (form_get form "notify_email"))
         (transmitted (new_events w (snd (add env st form w)))) /\
  (or_None (form_get form "notify_email") = None ->
   trace (snd (add env st form w)) = trace w) /\
  (reload_raises st = None ->
   fst (add env st form w) = Ok (Redirect "index")).
Proof.
  intros A C. rewrite (add_task_accepted env st form due w A), C.
  destruct (after_commit_table env st form due (stored st form due w))
    as (_ & _ & R & L & F & N).
  change (new_events w (snd (confirm env st form due (stored st form due w))))
    with (new_events (stored st form due w)
            (snd (confirm env st form due (stored st form due w)))).
  split; [exact L|]. split; [exact F|]. split; [|exact R].
  intros E. now rewrite (N E).
Qed.


(** X15.  Adding a task and then opening the index: after an accepted and
    committed form, the index page lists the old rows and the new one, each
    once, in ascending order of due date. *)
Theorem added_task_is_listed
  (env : Env) (st : Store) (form : Form) (due : Z) (w : World) (st2 : Store) :
  form_ok form due -> commit_raises env = None ->
  listing_raises st2 = None ->
  exists tasks,
    fst (index st2 (snd (add env st form w)))
    = Ok (Template "index.html" tasks) /\
    Permutation (db w ++ [new_row st form due]) tasks /\
    In (new_row st form due) tasks /\
    due_ascending tasks = true.
Proof.
  intros A C L.
  assert (DB : db (snd (add env st form w))
               = (db w ++ [new_row st form due])%list).
  { rewrite (add_task_accepted env st form due w A), C.
    apply (after_commit_table env st form due (stored st form due w)). }
  unfold index, bind, app_context, Task_query_ordered, ret. rewrite L.
  cbn [fst snd db session]. rewrite DB.
  eexists. split; [reflexivity|].
  split; [apply order_by_due_date_perm|]. split.
  - apply (Permutation_in _ (order_by_due_date_perm _)).
    apply in_or_app. right. now left.
  - apply order_by_due_date_ascending.
Qed.

End BeyondWeb.

(** * Beyond the claims: the recipients of the reminders *)



Section Recipients.

Variable str_datetime : Z -> string.
Variable cfg : Config.

Local Abbreviation scan := (check_deadlines str_datetime cfg).
Local Abbreviation events := (scan_events str_datetime cfg).





End Recipients.

(** * More concrete runs *)

Module MoreExamples.

Import Fixtures.

Ltac unique :=
  unfold unique_ids; simpl; repeat constructor; simpl; intuition discriminate.

(** A refused QUIT: both messages of the report reach the server, both calls
    of [send_email] return [False], and no flag is set. *)
Lemma refused_quit_is_a_failed_send :
  sends (scan_events render config (quit_refused 0) (fresh [report]))
  = [(1, Day, false); (1, Hour, false)] /\
  List.length
    (transmitted (scan_events render config (quit_refused 0) (fresh [report])))
  = 2%nat /\
  db (snd (check_deadlines render config (quit_refused 0) (fresh [report])))
  = [report].
Proof. repeat split; vm_compute; reflexivity. Qed.

(** X4 on three runs without password. *)
Lemma no_credentials_nothing_sent_nothing_flagged_witness :
  has_credentials no_password = false /\
  db (run_scans render no_password [quiet 0; quiet 1; commit_down 2]
        (fresh [report; orphan]))
  = db (fresh [report; orphan]).
Proof.
  split; [reflexivity|].
  exact (proj1 (no_credentials_nothing_sent_nothing_flagged render no_password
                  [quiet 0; quiet 1; commit_down 2] (fresh [report; orphan])
                  eq_refl)).
Defined.

(** X5 on a finished task, over two runs. *)
Lemma not_due_never_reminded_witness :
  In done (db (run_scans render config [quiet 0; quiet (timedelta_minutes 10)]
                 (fresh [report; done]))) /\
  (forall k,
     calls k (id done)
       (new_events (fresh [report; done])
          (run_scans render config [quiet 0; quiet (timedelta_minutes 10)]
             (fresh [report; done]))) = 0%nat).
Proof.
  apply (not_due_never_reminded render config
           [quiet 0; quiet (timedelta_minutes 10)] (fresh [report; done]) done);
    [unique | simpl; tauto |].
  apply Forall_cons; [left; discriminate|].
  apply Forall_cons; [left; discriminate|]. apply Forall_nil.
Defined.

Lemma first_run_sends :
  sends (scan_events render config (quiet 0) (fresh [report; review]))
  = [(1, Day, true); (2, Day, true); (1, Hour, true)].
Proof. vm_compute. reflexivity. Qed.

Lemma second_run_sends :
  map fst
    (sends (scan_events render config (quiet (timedelta_minutes 90))
              (snd (check_deadlines render config (quiet 0)
                      (fresh [report; review])))))
  = [(2, Hour)].
Proof. vm_compute. reflexivity. Qed.

(** X6: the review, due in two hours, gets its hour reminder in a run ninety
    minutes after a first run that sent everything it had to. *)
Lemma later_run_reminds_only_newly_due_witness :
  exists t,
    In t (db (fresh [report; review])) /\ id t = 2 /\
    now (quiet 0) + lead Hour < due_date t.
Proof.
  apply (later_run_reminds_only_newly_due render config (quiet 0)
           (quiet (timedelta_minutes 90)) (fresh [report; review]) Hour 2).
  - reflexivity.
  - reflexivity.
  - intros j H. rewrite first_run_sends in H.
    destruct H as [H|[H|[H|[]]]]; discriminate.
  - discriminate.
  - rewrite second_run_sends. now left.
Defined.

(** X9 on a form with an empty title. *)
Lemma add_task_refuses_missing_fields_witness :
  fst (add_task render config read_minutes read_iso (quiet 0) store9
         form_untitled (fresh [report]))
  = Ok (Text "Missing fields" 400).
Proof.
  apply (add_task_refuses_missing_fields render config read_minutes read_iso
           (quiet 0) store9 form_untitled (fresh [report])).
  left. reflexivity.
Defined.

(** X10 on a date no reader knows. *)
Lemma add_task_refuses_unreadable_date_witness :
  fst (add_task render config read_minutes read_iso (quiet 0) store9
         form_bad_date (fresh [report]))
  = Ok (Text "Invalid date format. Use YYYY-MM-DDTHH:MM" 400).
Proof.
  apply (add_task_refuses_unreadable_date render config read_minutes read_iso
           (quiet 0) store9 form_bad_date (fresh [report]));
    reflexivity.
Defined.

Lemma form_full_accepted :
  accepted read_minutes read_iso form_full (timedelta_minutes 30).
Proof. repeat split. Defined.

Lemma form_silent_accepted :
  accepted read_minutes read_iso form_silent (timedelta_minutes 45).
Proof. repeat split. Defined.

(** X11 on the full form, the SMTP server being down. *)
Lemma add_task_stores_the_row_witness :
  db (snd (add_task render config read_minutes read_iso (smtp_down 0) store9
             form_full (fresh [report])))
  = [report; new_row store9 form_full (timedelta_minutes 30)].
Proof.
  exact (proj1 (add_task_stores_the_row render config read_minutes read_iso
                  (smtp_down 0) store9 form_full (timedelta_minutes 30)
                  (fresh [report]) form_full_accepted eq_refl)).
Defined.

(** X12 on the full form, the commit failing. *)
Lemma add_task_commit_failure_witness :
  fst (add_task render config read_minutes read_iso (commit_down 0) store9
         form_full (fresh [report]))
  = Raise "database is locked" /\
  db (snd (add_task render config read_minutes read_iso (commit_down 0) store9
             form_full (fresh [report])))
  = [report].
Proof.
  destruct (add_task_commit_failure render config read_minutes read_iso
              (commit_down 0) store9 form_full (timedelta_minutes 30)
              (fresh [report]) "database is locked" form_full_accepted eq_refl)
    as (A & B & _).
  split; [exact A | exact B].
Defined.

(** X13 on the form with an empty notify_email, read by the second reader. *)
Lemma add_task_confirms_to_the_given_address_only_witness :
  trace (snd (add_task render config read_minutes read_iso (quiet 0) store9
                form_silent (fresh [report])))
  = [] /\
  fst (add_task render config read_minutes read_iso (quiet 0) store9
         form_silent (fresh [report]))
  = Ok (Redirect "index").
Proof.
  destruct (add_task_confirms_to_the_given_address_only render config
              read_minutes read_iso (quiet 0) store9 form_silent
              (timedelta_minutes 45) (fresh [report])
              form_silent_accepted eq_refl)
    as (_ & _ & A & B).
  split; [exact (A eq_refl) | exact (B eq_refl)].
Defined.


(** X15: the task of the full form sorts before the report. *)
Lemma added_task_is_listed_witness :
  exists tasks,
    fst (index store9
           (snd (add_task render config read_minutes read_iso (quiet 0) store9
                   form_full (fresh [report]))))
    = Ok (Template "index.html" tasks) /\
    Permutation
      (db (fresh [report]) ++ [new_row store9 form_full (timedelta_minutes 30)])
      tasks /\
    In (new_row store9 form_full (timedelta_minutes 30)) tasks /\
    due_ascending tasks = true.
Proof.
  exact (added_task_is_listed render config read_minutes read_iso (quiet 0)
           store9 form_full (timedelta_minutes 30) (fresh [report]) store9
           form_full_accepted eq_refl eq_refl).
Defined.


End MoreExamples.
